(** * Verification of the request processor and the agent endpoint

    Shallow embedding of
    - [lib/src/request_processor.cc] (module [RequestProcessor] below):
      [wrapDebug], [nonBlockingActionTask], the constructor of
      [RequestProcessor], [processBlockingRequest] and
      [processNonBlockingRequest];
    - [src/agent/agent_endpoint.cpp] (module [AgentEndpoint] below):
      [HeartbeatTask] ([start], [stop], [heartbeatThread]), [send_login],
      [handle_message], the pong callbacks of [setConnectionCallbacks],
      [monitorConnectionState] and [connect_and_run];
    - [src/file_utils.h]: [writeToFile] and [createDirectory], as
      operations on the file system of the world.

    Effectful code is written as a program tree over the primitive
    operations it performs (file system, connector, clock, threads, log);
    a world interprets the operations one at a time, so that a program can
    be run alone or interleaved with the threads it spawned. *)

From Stdlib Require Import ZArith NArith String Ascii DecimalString.
From stdpp Require Import base option list gmap strings.

Local Open Scope string_scope.
Local Open Scope list_scope.

(** ** Exceptions *)

(** The exception classes the two files throw and catch;
    [std_exception] stands for the other classes derived from
    [std::exception], and [non_std_exception] for a thrown object that
    does not derive from it, which only [catch (...)] catches. *)
Variant exn_class :=
| fatal_error | request_processing_error | request_error | validation_error
| file_error | connection_error | message_error | endpoint_error
| std_exception | non_std_exception.

Global Instance exn_class_eq_dec : EqDecision exn_class.
Proof. solve_decision. Defined.

(** A thrown object: its class and its [what()] text. *)
Record exn := Exn { exn_cls : exn_class; what : string }.

Global Instance exn_eq_dec : EqDecision exn.
Proof. solve_decision. Defined.

(** How a call ends. *)
Variant Outcome (A : Type) :=
| Returned (a : A)
| Threw (e : exn).
Arguments Returned {A} a.
Arguments Threw {A} e.

(** The character appended to every spool write. *)
Definition nl : string := String (ascii_of_nat 10) EmptyString.

(** [std::string::empty]. *)
Definition empty (s : string) : bool :=
  match s with EmptyString => true | String _ _ => false end.

(** [std::to_string] on a non-negative integer. *)
Definition to_string (n : N) : string := NilEmpty.string_of_uint (N.to_uint n).

(** ** Program trees *)

Section Prog.
Context {Op : Type} {Resp : Op -> Type}.

(** A program either returns, throws, or performs one operation and
    continues with its response. *)
Inductive Prog (A : Type) : Type :=
| Ret (a : A)
| Throw (e : exn)
| Vis (o : Op) (k : Resp o -> Prog A).
Arguments Ret {A} a.
Arguments Throw {A} e.
Arguments Vis {A} o k.

Fixpoint bind {A B} (p : Prog A) (f : A -> Prog B) : Prog B :=
  match p with
  | Ret a => f a
  | Throw e => Throw e
  | Vis o k => Vis o (fun r => bind (k r) f)
  end.

(** [try { p }] with the handlers [h]: [h e = None] when no clause matches
    [e], which then propagates. *)
Fixpoint try_catch {A} (p : Prog A) (h : exn -> option (Prog A)) : Prog A :=
  match p with
  | Ret a => Ret a
  | Throw e => match h e with Some q => q | None => Throw e end
  | Vis o k => Vis o (fun r => try_catch (k r) h)
  end.

(** Perform one operation. *)
Definition call (o : Op) : Prog (Resp o) := Vis o Ret.

(** A library call that returns or throws. *)
Definition lift {A} (r : exn + A) : Prog A :=
  match r with inl e => Throw e | inr a => Ret a end.
End Prog.

Arguments Prog Op Resp A : clear implicits.
Arguments Ret {Op Resp A} a.
Arguments Throw {Op Resp A} e.
Arguments Vis {Op Resp A} o k.

Global Instance Prog_ret {Op Resp} : MRet (Prog Op Resp) := fun A a => Ret a.
Global Instance Prog_bind {Op Resp} : MBind (Prog Op Resp) :=
  fun A B f p => bind p f.

(** [catch (C& e) { h e }]: matches the class [C] only. *)
Definition catch {Op Resp A} (c : exn_class) (h : exn -> Prog Op Resp A)
  : exn -> option (Prog Op Resp A) :=
  fun e => if decide (exn_cls e = c) then Some (h e) else None.

(** [catch (std::exception& e) { h e }]: every class derives from it
    but [non_std_exception]. *)
Definition catch_std_exception {Op Resp A} (h : exn -> Prog Op Resp A)
  : exn -> option (Prog Op Resp A) :=
  fun e => if decide (exn_cls e = non_std_exception) then None
           else Some (h e).

(** [catch (...) { h }]. *)
Definition catch_all {Op Resp A} (h : Prog Op Resp A)
  : exn -> option (Prog Op Resp A) :=
  fun _ => Some h.

(** Two handlers of one [try] block, in the order of the source: the first
    that matches. *)
Definition or_catch {Op Resp A} (h1 h2 : exn -> option (Prog Op Resp A))
  : exn -> option (Prog Op Resp A) :=
  fun e => match h1 e with Some q => Some q | None => h2 e end.

(** * lib/src/request_processor.cc *)

Module RequestProcessor.

(** ** Data model *)

(** [CthunClient::DataContainer]: a JSON object, kept as its entries in
    insertion order. *)
#[warnings="-register-all"]
Inductive DataValue :=
| DString (s : string)
| DBool (b : bool)
| DObject (entries : list (string * DataValue)).

Definition DataContainer := list (string * DataValue).

Fixpoint dc_lookup (key : string) (d : DataContainer) : option DataValue :=
  match d with
  | [] => None
  | (k, v) :: d' => if String.eqb k key then Some v else dc_lookup key d'
  end.

(** [d.set<T>(key, v)]: overwrite the entry, or add it. *)
Fixpoint dc_set (key : string) (v : DataValue) (d : DataContainer)
  : DataContainer :=
  match d with
  | [] => [(key, v)]
  | (k, v') :: d' =>
      if String.eqb k key then (k, v) :: d' else (k, v') :: dc_set key v d'
  end.

(** [d.get<std::string>(key)], [d.get<bool>(key)] and
    [d.get<DataContainer>(key)]; a missing entry reads as the default
    value of the type. *)
Definition get_string (d : DataContainer) (key : string) : string :=
  match dc_lookup key d with Some (DString s) => s | _ => EmptyString end.

Definition get_bool (d : DataContainer) (key : string) : bool :=
  match dc_lookup key d with Some (DBool b) => b | _ => false end.

Definition get_data (d : DataContainer) (key : string) : DataContainer :=
  match dc_lookup key d with Some (DObject e) => e | _ => [] end.

Definition set_string key (s : string) := dc_set key (DString s).
Definition set_bool key (b : bool) := dc_set key (DBool b).
Definition set_data key (d : DataContainer) := dc_set key (DObject d).

(** [CthunClient::ParsedChunks]. *)
Record ParsedChunks := {
  envelope : DataContainer;
  data : DataContainer;
  debug : list DataContainer;
  num_invalid_debug : nat }.

(** [ActionOutcome] (action_outcome.hpp). *)
Variant OutcomeType := Internal | External.

Record ActionOutcome := {
  type : OutcomeType;
  stderr : string;
  stdout : string;
  results : DataContainer }.

(** A module: its name and its [executeAction] method, which returns an
    outcome or throws. *)
Record Module := {
  module_name : string;
  executeAction : string -> ParsedChunks -> exn + ActionOutcome }.

(** Fixed outside this file: the serializer of the client library, the
    [type] a default-constructed [ActionOutcome] has, and
    [StringUtils::plural]. *)
Class Externals := {
  toString : DataContainer -> string;
  default_type : OutcomeType;
  plural : nat -> string }.

(** [ActionOutcome outcome {}]: empty strings, an empty container, and
    whatever [type] the constructor leaves. *)
Definition default_outcome `{!Externals} : ActionOutcome :=
  {| type := default_type; stderr := EmptyString; stdout := EmptyString;
     results := [] |}.

(** [RPCSchemas::*_TYPE]. *)
Variant MsgType :=
| BLOCKING_RESPONSE_TYPE
| NON_BLOCKING_RESPONSE_TYPE
| PROVISIONAL_RESPONSE_TYPE
| RPC_ERROR_MSG_TYPE.

Global Instance MsgType_eq_dec : EqDecision MsgType.
Proof. solve_decision. Defined.

(** Modelled from the spec: the constant [DEFAULT_MSG_TIMEOUT_SEC], whose
    definition is not in this file; the spec recommends 10 s. *)
Definition DEFAULT_MSG_TIMEOUT_SEC : N := 10.

(** The arguments [std::thread] hands to [nonBlockingActionTask]; [done]
    is the address of the shared [std::atomic<bool>]. The connector is the
    processor's one. *)
Record TaskArgs := {
  ta_module : Module;
  ta_action : string;
  ta_chunks : ParsedChunks;
  ta_job_id : string;
  ta_results_dir : string;
  ta_done : nat }.

Variant Level := DEBUG | INFO | WARNING | ERROR.

(** ** Primitive operations *)

Variant Op :=
| UUID_getUUID
| filesystem_exists (path : string)
| FileUtils_createDirectory (dirname : string)
| FileUtils_writeToFile (text file_path : string)
| Connector_send (targets : list string) (msg_type : MsgType) (timeout : N)
    (payload : DataContainer) (dbg : list DataContainer)
| Module_executeAction (m : Module) (action : string) (chunks : ParsedChunks)
| Clock_now
| atomic_bool_new
| atomic_bool_store_true (flag : nat)
| ThreadContainer_add (args : TaskArgs)
| LOG (lvl : Level) (fmt : string) (args : list string).

Definition Resp (o : Op) : Type :=
  match o with
  | UUID_getUUID => string
  | filesystem_exists _ => bool
  | FileUtils_createDirectory _ => bool
  | FileUtils_writeToFile _ _ => (exn + unit)%type
  | Connector_send _ _ _ _ _ => (exn + unit)%type
  | Module_executeAction _ _ _ => (exn + ActionOutcome)%type
  | Clock_now => N
  | atomic_bool_new => nat
  | atomic_bool_store_true _ => unit
  | ThreadContainer_add _ => (exn + unit)%type
  | LOG _ _ _ => unit
  end.

Abbreviation M := (Prog Op Resp).

(** ** The world *)

Variant Node := Dir | File (content : string).

Record Message := {
  msg_targets : list string;
  msg_type : MsgType;
  msg_timeout : N;
  msg_data : DataContainer;
  msg_debug : list DataContainer }.

Variant Tid := MainThread | TaskThread (n : nat).

Global Instance Tid_eq_dec : EqDecision Tid.
Proof. solve_decision. Defined.

(** One operation performed by a thread, with the response it got: a
    call that threw carries the exception, one that returned carries its
    value. *)
Inductive Event :=
| EvUUID (t : Tid) (uuid : string)
| EvExists (t : Tid) (path : string) (found : bool)
| EvCreateDirectory (t : Tid) (dirname : string) (created : bool)
| EvWrite (t : Tid) (text file_path : string) (r : exn + unit)
| EvSend (t : Tid) (m : Message) (r : exn + unit)
| EvExecute (t : Tid) (m : Module) (action : string) (chunks : ParsedChunks)
    (r : exn + ActionOutcome)
| EvClock (t : Tid) (ms : N)
| EvNewFlag (t : Tid) (flag : nat)
| EvStoreTrue (t : Tid) (flag : nat)
| EvThreadAdd (t : Tid) (args : TaskArgs) (r : exn + unit)
| EvLog (t : Tid) (lvl : Level) (fmt : string) (args : list string).

Definition Ev (t : Tid) (o : Op) : Resp o -> Event :=
  match o as o' return Resp o' -> Event with
  | UUID_getUUID => EvUUID t
  | filesystem_exists p => EvExists t p
  | FileUtils_createDirectory d => EvCreateDirectory t d
  | FileUtils_writeToFile text p => EvWrite t text p
  | Connector_send targets ty timeout payload dbg =>
      EvSend t {| msg_targets := targets; msg_type := ty;
                  msg_timeout := timeout; msg_data := payload;
                  msg_debug := dbg |}
  | Module_executeAction m a chunks => EvExecute t m a chunks
  | Clock_now => EvClock t
  | atomic_bool_new => EvNewFlag t
  | atomic_bool_store_true f => fun _ => EvStoreTrue t f
  | ThreadContainer_add args => EvThreadAdd t args
  | LOG lvl fmt args => fun _ => EvLog t lvl fmt args
  end.

(** What the program does not decide, as functions of the number of
    operations performed so far: the UUID drawn, whether a directory can be
    created, a file opened, a message sent, a thread started (each [Some]
    is the [what()] of the failure), and the clock in milliseconds. *)
Record Env := {
  env_uuid : nat -> string;
  env_mkdir : nat -> bool;
  env_open : nat -> option string;
  env_send : nat -> option string;
  env_spawn : nat -> option string;
  env_clock : nat -> N }.

Record World := {
  w_env : Env;
  w_step : nat;
  w_fs : gmap string Node;
  w_outbox : list Message;
  w_flags : list bool;
  w_threads : list TaskArgs;
  w_trace : list Event }.

Definition set_fs (f : gmap string Node -> gmap string Node) (w : World) :=
  {| w_env := w_env w; w_step := w_step w; w_fs := f (w_fs w);
     w_outbox := w_outbox w; w_flags := w_flags w;
     w_threads := w_threads w; w_trace := w_trace w |}.

Definition set_outbox (f : list Message -> list Message) (w : World) :=
  {| w_env := w_env w; w_step := w_step w; w_fs := w_fs w;
     w_outbox := f (w_outbox w); w_flags := w_flags w;
     w_threads := w_threads w; w_trace := w_trace w |}.

Definition set_flags (f : list bool -> list bool) (w : World) :=
  {| w_env := w_env w; w_step := w_step w; w_fs := w_fs w;
     w_outbox := w_outbox w; w_flags := f (w_flags w);
     w_threads := w_threads w; w_trace := w_trace w |}.

Definition set_threads (f : list TaskArgs -> list TaskArgs) (w : World) :=
  {| w_env := w_env w; w_step := w_step w; w_fs := w_fs w;
     w_outbox := w_outbox w; w_flags := w_flags w;
     w_threads := f (w_threads w); w_trace := w_trace w |}.

(** Append an event to the trace and count the operation. *)
Definition record (e : Event) (w : World) :=
  {| w_env := w_env w; w_step := S (w_step w); w_fs := w_fs w;
     w_outbox := w_outbox w; w_flags := w_flags w;
     w_threads := w_threads w; w_trace := w_trace w ++ [e] |}.

(** The index of the next operation. *)
Definition now (w : World) : nat := w_step w.

(** The effect of one operation on the world, and its response.
    - [boost::filesystem::exists]: the path names a directory or a file;
    - [createDirectory]: true and the directory is there, or false;
    - [writeToFile]: replaces the content of the file, or throws
      [file_error] when the file cannot be opened (file_utils.h);
    - [Connector::send]: delivers the message or throws
      [connection_error];
    - [executeAction]: the module's method;
    - [new std::atomic<bool> { false }] and [*done = true];
    - [thread_container_.add(std::thread(&nonBlockingActionTask, ...))]:
      the thread is started and registered, or an exception is thrown. *)
Definition perform (o : Op) (w : World) : Resp o * World :=
  match o as o' return Resp o' * World with
  | UUID_getUUID => (env_uuid (w_env w) (now w), w)
  | filesystem_exists p => (bool_decide (is_Some (w_fs w !! p)), w)
  | FileUtils_createDirectory d =>
      if env_mkdir (w_env w) (now w)
      then (true, set_fs (insert d Dir) w)
      else (false, w)
  | FileUtils_writeToFile text p =>
      match env_open (w_env w) (now w) with
      | Some msg => (inl (Exn file_error msg), w)
      | None => (inr tt, set_fs (insert p (File text)) w)
      end
  | Connector_send targets ty timeout payload dbg =>
      match env_send (w_env w) (now w) with
      | Some msg => (inl (Exn connection_error msg), w)
      | None =>
          (inr tt,
           set_outbox (fun l => l ++ [{| msg_targets := targets;
                                          msg_type := ty;
                                          msg_timeout := timeout;
                                          msg_data := payload;
                                          msg_debug := dbg |}]) w)
      end
  | Module_executeAction m a chunks => (executeAction m a chunks, w)
  | Clock_now => (env_clock (w_env w) (now w), w)
  | atomic_bool_new =>
      (length (w_flags w), set_flags (fun l => l ++ [false]) w)
  | atomic_bool_store_true f => (tt, set_flags (fun l => <[f := true]> l) w)
  | ThreadContainer_add args =>
      match env_spawn (w_env w) (now w) with
      | Some msg => (inl (Exn std_exception msg), w)
      | None => (inr tt, set_threads (fun l => l ++ [args]) w)
      end
  | LOG _ _ _ => (tt, w)
  end.

(** One step of thread [t]: perform the operation and log the event. *)
Definition handle (t : Tid) (o : Op) (w : World) : Resp o * World :=
  let rw := perform o w in (rw.1, record (Ev t o rw.1) rw.2).

(** Run a program of thread [t] to its end, with no other thread
    running in between. *)
Fixpoint run {A} (t : Tid) (p : M A) (w : World) : Outcome A * World :=
  match p with
  | Ret a => (Returned a, w)
  | Throw e => (Threw e, w)
  | Vis o k => let (r, w') := handle t o w in run t (k r) w'
  end.

(** ** The code *)

Section Code.
Context `{Ext : !Externals}.

(** The library calls, as operations; one that can throw rethrows what
    the world answered. *)
Definition getUUID : M string := call UUID_getUUID.

Definition exists_ (path : string) : M bool := call (filesystem_exists path).

Definition createDirectory (dirname : string) : M bool :=
  call (FileUtils_createDirectory dirname).

Definition writeToFile (text file_path : string) : M unit :=
  r ← call (FileUtils_writeToFile text file_path); lift r.

Definition send (targets : list string) (ty : MsgType) (timeout : N)
    (payload : DataContainer) (dbg : list DataContainer) : M unit :=
  r ← call (Connector_send targets ty timeout payload dbg); lift r.

Definition execute (m : Module) (action : string) (chunks : ParsedChunks)
  : M ActionOutcome :=
  r ← call (Module_executeAction m action chunks); lift r.

Definition new_atomic_bool : M nat := call atomic_bool_new.

Definition store_true (flag : nat) : M unit :=
  call (atomic_bool_store_true flag).

Definition thread_container_add (args : TaskArgs) : M unit :=
  r ← call (ThreadContainer_add args); lift r.

Definition log (lvl : Level) (fmt : string) (args : list string) : M unit :=
  call (LOG lvl fmt args).

(** Modelled from the spec: [CthunAgent::Timer] (timer.hpp is not in this
    file). Its constructor reads the clock; [elapsedSeconds] reads it again
    and gives the whole seconds since, "compute duration as
    floor(seconds)". The clock counts milliseconds. *)
Definition Timer_new : M N := call Clock_now.

Definition Timer_elapsedSeconds (start : N) : M N :=
  t ← call Clock_now; mret ((t - start) / 1000)%N.

(** [wrapDebug], lines 22-35. *)
Definition wrapDebug (parsed_chunks : ParsedChunks) : M (list DataContainer) :=
  let request_id := get_string (envelope parsed_chunks) "id" in
  (if negb (Nat.eqb (num_invalid_debug parsed_chunks) 0)
   then log WARNING "Message %1% contained %2% bad debug chunk%3%"
          [request_id; to_string (N.of_nat (num_invalid_debug parsed_chunks));
           plural (num_invalid_debug parsed_chunks)]
   else mret tt);;
  mret (foldl (fun dbg debug_entry => dbg ++ [debug_entry]) []
          (debug parsed_chunks)).

(** [nonBlockingActionTask], lines 39-151. The two variables the [try]
    block assigns, [err_msg] and [outcome], are its result. *)
Definition nonBlockingActionTask (module_ptr : Module) (action_name : string)
    (parsed_chunks : ParsedChunks) (job_id results_dir : string)
    (done : nat) : M unit :=
  let request_id := get_string (envelope parsed_chunks) "id" in
  let requester := get_string (envelope parsed_chunks) "sender" in
  let transaction_id := get_string (data parsed_chunks) "transaction_id" in
  let request_input_txt :=
    toString (get_data (data parsed_chunks) "params") in
  (* Initialize outcome files *)
  let action_status := [] in
  let action_status :=
    set_string "module" (module_name module_ptr) action_status in
  let action_status := set_string "action" action_name action_status in
  let action_status := set_string "status" "running" action_status in
  let action_status := set_string "duration" "0 s" action_status in
  let action_status :=
    if negb (empty request_input_txt)
    then set_string "input" request_input_txt action_status
    else set_string "input" "none" action_status in
  writeToFile EmptyString (results_dir +:+ "/stdout");;
  writeToFile EmptyString (results_dir +:+ "/stderr");;
  writeToFile (toString action_status +:+ nl) (results_dir +:+ "/status");;
  (* Execute action *)
  timer ← Timer_new;
  '(err_msg, outcome) ←
    try_catch
      (outcome ← execute module_ptr action_name parsed_chunks;
       (if get_bool (data parsed_chunks) "notify_outcome" then
          (* Send back results *)
          let response_data := [] in
          let response_data :=
            set_string "transaction_id" transaction_id response_data in
          let response_data := set_string "job_id" job_id response_data in
          let response_data :=
            set_data "results" (results outcome) response_data in
          try_catch
            (send [requester] NON_BLOCKING_RESPONSE_TYPE
               DEFAULT_MSG_TIMEOUT_SEC response_data [];;
             log INFO
               "Sent response for non-blocking request %1% by %2%, transaction %3%"
               [request_id; requester; transaction_id])
            (catch connection_error (fun e =>
               log ERROR
                 "Failed to reply to non-blocking request %1% by %2%, transaction %3% (no further attempts): %4%"
                 [request_id; requester; transaction_id; what e]))
        else mret tt);;
       mret (EmptyString, outcome))
      (catch request_error (fun e =>
         let err_msg := what e in
         (* Send back an RPC error message *)
         let rpc_error_data := [] in
         let rpc_error_data :=
           set_string "transaction_id" transaction_id rpc_error_data in
         let rpc_error_data := set_string "id" request_id rpc_error_data in
         let rpc_error_data :=
           set_string "description" (what e) rpc_error_data in
         try_catch
           (send [requester] RPC_ERROR_MSG_TYPE DEFAULT_MSG_TIMEOUT_SEC
              rpc_error_data [];;
            log INFO
              "Replied to non-blocking request %1% by %2%, transaction %3%, with an RPC error message"
              [request_id; requester; transaction_id])
           (catch connection_error (fun e =>
              log ERROR
                "Failed to send RPC error message for non-blocking request %1% by %2%, transaction %3% (no further attempts): %4%"
                [request_id; requester; transaction_id; what e]));;
         mret (err_msg, default_outcome)));
  (* Store results on disk *)
  secs ← Timer_elapsedSeconds timer;
  let duration := to_string secs +:+ " s" in
  let action_status := set_string "status" "completed" action_status in
  let action_status := set_string "duration" duration action_status in
  writeToFile (toString action_status +:+ nl) (results_dir +:+ "/status");;
  (if empty err_msg then
     match type outcome with
     | External =>
         writeToFile (stdout outcome +:+ nl) (results_dir +:+ "/stdout");;
         if negb (empty (stderr outcome))
         then writeToFile (stderr outcome +:+ nl) (results_dir +:+ "/stderr")
         else mret tt
     | Internal =>
         writeToFile (toString (results outcome) +:+ nl)
           (results_dir +:+ "/stdout")
     end
   else
     let err_msg :=
       "Failed to execute '" +:+ module_name module_ptr +:+ " "
       +:+ action_name +:+ "': " +:+ err_msg in
     writeToFile (err_msg +:+ nl) (results_dir +:+ "/stderr"));;
  (* Flag end of processing *)
  store_true done.

(** The thread body for the arguments given to [std::thread]. *)
Definition task (a : TaskArgs) : M unit :=
  nonBlockingActionTask (ta_module a) (ta_action a) (ta_chunks a)
    (ta_job_id a) (ta_results_dir a) (ta_done a).


(** [RequestProcessor::processBlockingRequest], lines 171-200. *)
Definition processBlockingRequest (module_ptr : Module)
    (action_name : string) (parsed_chunks : ParsedChunks) : M unit :=
  (* Execute action; possible request errors will be propagated *)
  outcome ← execute module_ptr action_name parsed_chunks;
  (* Send back response *)
  let request_id := get_string (envelope parsed_chunks) "id" in
  let requester := get_string (envelope parsed_chunks) "sender" in
  let transaction_id := get_string (data parsed_chunks) "transaction_id" in
  debug ← wrapDebug parsed_chunks;
  let response_data := [] in
  let response_data :=
    set_string "transaction_id" transaction_id response_data in
  let response_data :=
    set_data "results" (results outcome) response_data in
  try_catch
    (send [requester] BLOCKING_RESPONSE_TYPE DEFAULT_MSG_TIMEOUT_SEC
       response_data debug)
    (catch connection_error (fun e =>
       (* We failed to send the response; it's up to the requester to
          request the action again *)
       log ERROR
         "Failed to reply to blocking request %1% from %2%, transaction %3%: %4%"
         [request_id; requester; transaction_id; what e])).

(** [RequestProcessor::processNonBlockingRequest], lines 202-273;
    [spool_dir_] is the member set by the constructor. *)
Definition processNonBlockingRequest (spool_dir_ : string)
    (module_ptr : Module) (action_name : string)
    (parsed_chunks : ParsedChunks) : M unit :=
  let request_id := get_string (envelope parsed_chunks) "id" in
  let requester := get_string (envelope parsed_chunks) "sender" in
  let transaction_id := get_string (data parsed_chunks) "transaction_id" in
  job_id ← getUUID;
  let results_dir := spool_dir_ +:+ job_id in
  found ← exists_ results_dir;
  (if negb found then
     log DEBUG
       "Creating results directory for the '%1% %2%' job with ID %3% for request transaction %4%"
       [module_name module_ptr; action_name; job_id; transaction_id];;
     created ← createDirectory results_dir;
     if negb created
     then Throw (Exn request_processing_error
                   ("failed to create directory '" +:+ results_dir +:+ "'"))
     else mret tt
   else mret tt);;
  (* Spawn action task *)
  log DEBUG
    "Starting '%1% %2%' job with ID %3% for non-blocking request %4% by %5%, transaction %6%"
    [module_name module_ptr; action_name; job_id; request_id; requester;
     transaction_id];;
  err_msg ←
    try_catch
      (done ← new_atomic_bool;
       thread_container_add
         {| ta_module := module_ptr; ta_action := action_name;
            ta_chunks := parsed_chunks; ta_job_id := job_id;
            ta_results_dir := results_dir; ta_done := done |};;
       mret EmptyString)
      (catch_std_exception (fun e =>
         log ERROR "Failed to spawn '%1% %2%' action job with ID %3%: %4%"
           [module_name module_ptr; action_name; job_id; what e];;
         mret ("failed to start action task: " +:+ what e)));
  (* Send back provisional data *)
  debug ← wrapDebug parsed_chunks;
  let provisional_data := [] in
  let provisional_data :=
    set_string "transaction_id" transaction_id provisional_data in
  let provisional_data :=
    set_bool "success" (empty err_msg) provisional_data in
  let provisional_data := set_string "job_id" job_id provisional_data in
  let provisional_data :=
    if negb (empty err_msg)
    then set_string "error" err_msg provisional_data
    else provisional_data in
  try_catch
    (send [requester] PROVISIONAL_RESPONSE_TYPE DEFAULT_MSG_TIMEOUT_SEC
       provisional_data debug;;
     log INFO "Sent provisional response for request %1% by %2%, transaction %3%"
       [request_id; requester; transaction_id])
    (catch connection_error (fun e =>
       log ERROR
         "Failed to send provisional response for request %1% by %2%, transaction %3% (no further attempts): %4%"
         [request_id; requester; transaction_id; what e])).

End Code.

(** ** Threads *)

Section Threads.
Context `{Ext : !Externals}.

(** The processor's thread, the task threads started so far, and the
    world they share. *)
Record Config := {
  c_main : M unit;
  c_tasks : list (M unit);
  c_world : World }.




End Threads.

(** The events a run added to the trace of [w]. *)
Definition events_since (w w' : World) : list Event :=
  drop (length (w_trace w)) (w_trace w').

(** ** What a thread may rely on

    No operation removes a path, so a thread that has seen a path exist
    may rely on it whatever the other threads do. [guarded ok K p Q E]
    says that every operation [p] performs satisfies [ok] for the paths
    known to exist at that point, starting from [K]; [Q] and [E] are what
    holds when [p] returns or throws. *)





(** ** Observations on a trace *)



(** The message thread [t] tried to send at an event, if it is one. *)
Definition sent_by (t : Tid) (e : Event) : option Message :=
  match e with
  | EvSend t' m _ => if decide (t' = t) then Some m else None
  | _ => None
  end.

(** The UUIDs drawn, in order. *)
Definition drawn_uuids (evs : list Event) : list string :=
  omap (fun e => match e with EvUUID _ u => Some u | _ => None end) evs.

(** All the messages thread [t] tried to send, in order. *)
Definition sends_of (t : Tid) (evs : list Event) : list Message :=
  omap (sent_by t) evs.

(** What the task sends to the requester when the action fails. *)
Definition rpc_error_message (chunks : ParsedChunks) (description : string)
  : Message :=
  {| msg_targets := [get_string (envelope chunks) "sender"];
     msg_type := RPC_ERROR_MSG_TYPE;
     msg_timeout := DEFAULT_MSG_TIMEOUT_SEC;
     msg_data :=
       [("transaction_id",
         DString (get_string (data chunks) "transaction_id"));
        ("id", DString (get_string (envelope chunks) "id"));
        ("description", DString description)];
     msg_debug := [] |}.

(** What the processor sends back at once for a non-blocking request. *)
Definition provisional_message (chunks : ParsedChunks) (payload : DataContainer)
  : Message :=
  {| msg_targets := [get_string (envelope chunks) "sender"];
     msg_type := PROVISIONAL_RESPONSE_TYPE;
     msg_timeout := DEFAULT_MSG_TIMEOUT_SEC;
     msg_data := payload;
     msg_debug := debug chunks |}.

(** What the processor sends back for a blocking request. *)
Definition blocking_message (chunks : ParsedChunks) (outcome : ActionOutcome)
  : Message :=
  {| msg_targets := [get_string (envelope chunks) "sender"];
     msg_type := BLOCKING_RESPONSE_TYPE;
     msg_timeout := DEFAULT_MSG_TIMEOUT_SEC;
     msg_data :=
       [("transaction_id",
         DString (get_string (data chunks) "transaction_id"));
        ("results", DObject (results outcome))];
     msg_debug := debug chunks |}.

(** What the task sends when the action returned and the requester
    asked to be notified. *)
Definition non_blocking_message (chunks : ParsedChunks) (job_id : string)
    (outcome : ActionOutcome) : Message :=
  {| msg_targets := [get_string (envelope chunks) "sender"];
     msg_type := NON_BLOCKING_RESPONSE_TYPE;
     msg_timeout := DEFAULT_MSG_TIMEOUT_SEC;
     msg_data :=
       [("transaction_id",
         DString (get_string (data chunks) "transaction_id"));
        ("job_id", DString job_id);
        ("results", DObject (results outcome))];
     msg_debug := [] |}.

(** The three files of a job. *)
Definition job_file (dir path : string) : Prop :=
  path = dir +:+ "/stdout" \/ path = dir +:+ "/stderr"
  \/ path = dir +:+ "/status".

(** A write to one of the two stream files of a job that returned. *)
Definition is_stream_write (t : Tid) (dir : string) (e : Event) : Prop :=
  exists text,
    e = EvWrite t text (dir +:+ "/stdout") (inr tt) \/
    e = EvWrite t text (dir +:+ "/stderr") (inr tt).


(** ** Sample runs *)

Module Sample.

(** A serializer, to run the code on examples. *)
Fixpoint show_value (v : DataValue) : string :=
  match v with
  | DString s => s
  | DBool b => if b then "true" else "false"
  | DObject entries =>
      "{" +:+
      (fix show_entries (l : list (string * DataValue)) : string :=
         match l with
         | [] => EmptyString
         | (k, v) :: l' =>
             k +:+ "=" +:+ show_value v +:+ ";" +:+ show_entries l'
         end) entries
      +:+ "}"
  end.

Definition externals : Externals :=
  {| toString := fun d => show_value (DObject d);
     default_type := Internal;
     plural := fun n => if Nat.eqb n 1 then EmptyString else "s" |}.

(** Modelled from the spec: [DataContainer::toString] is not in this
    file; the spec has the params "serialized as a single JSON
    document". A compact JSON writer, without escapes: an empty object is
    written as its two braces. *)
Definition quote : string := String (ascii_of_nat 34) EmptyString.

Fixpoint json_text (v : DataValue) : string :=
  match v with
  | DString s => quote +:+ s +:+ quote
  | DBool b => if b then "true" else "false"
  | DObject entries =>
      "{" +:+
      (fix json_members (l : list (string * DataValue)) : string :=
         match l with
         | [] => EmptyString
         | (k, v) :: l' =>
             quote +:+ k +:+ quote +:+ ":" +:+ json_text v +:+
             match l' with
             | [] => EmptyString
             | _ :: _ => "," +:+ json_members l'
             end
         end) entries
      +:+ "}"
  end.

Definition json : Externals :=
  {| toString := fun d => json_text (DObject d);
     default_type := Internal;
     plural := fun n => if Nat.eqb n 1 then EmptyString else "s" |}.

Definition chunks : ParsedChunks :=
  {| envelope := [("id", DString "req-1");
                  ("sender", DString "cth://controller")];
     data := [("transaction_id", DString "t1");
              ("module", DString "echo");
              ("action", DString "run");
              ("params", DObject [("message", DString "hi")]);
              ("notify_outcome", DBool true)];
     debug := [];
     num_invalid_debug := 0 |}.

(** The same request, of which one debug chunk was invalid. *)
Definition chunks_bad_debug : ParsedChunks :=
  {| envelope := envelope chunks;
     data := data chunks;
     debug := [[("hop", DString "server")]];
     num_invalid_debug := 1 |}.

(** The same request with empty [params]. *)
Definition chunks_empty_params : ParsedChunks :=
  {| envelope := envelope chunks;
     data := [("transaction_id", DString "t1");
              ("module", DString "echo");
              ("action", DString "run");
              ("params", DObject []);
              ("notify_outcome", DBool true)];
     debug := [];
     num_invalid_debug := 0 |}.

(** A module that answers, one that fails, and one that fails with an
    empty message. *)
Definition echo : Module :=
  {| module_name := "echo";
     executeAction := fun _ c =>
       inr {| type := Internal; stderr := EmptyString;
              stdout := EmptyString;
              results := [("outcome",
                           DString (get_string
                                      (get_data (data c) "params")
                                      "message"))] |} |}.

Definition pkg : Module :=
  {| module_name := "pkg";
     executeAction := fun _ _ => inl (Exn request_error "E: no space") |}.

Definition mute : Module :=
  {| module_name := "mute";
     executeAction := fun _ _ => inl (Exn request_error EmptyString) |}.

(** An environment in which everything works; the clock advances 700 ms
    at each operation. *)
Definition quiet : Env :=
  {| env_uuid := fun _ => "J1";
     env_mkdir := fun _ => true;
     env_open := fun _ => None;
     env_send := fun _ => None;
     env_spawn := fun _ => None;
     env_clock := fun n => (700 * N.of_nat n)%N |}.

Definition world (env : Env) (fs : gmap string Node) : World :=
  {| w_env := env; w_step := 0; w_fs := fs; w_outbox := [];
     w_flags := [false]; w_threads := []; w_trace := [] |}.

(** Only the spool directory exists. *)
Definition fresh : World := world quiet {[ "/spool/" := Dir ]}.

(** The directory of job [J1] is already there. *)
Definition collision : World :=
  world quiet {[ "/spool/" := Dir; "/spool/J1" := Dir ]}.

(** No directory can be created. *)
Definition mkdir_fails : World :=
  world {| env_uuid := env_uuid quiet; env_mkdir := fun _ => false;
           env_open := env_open quiet; env_send := env_send quiet;
           env_spawn := env_spawn quiet; env_clock := env_clock quiet |}
    {[ "/spool/" := Dir ]}.

(** No thread can be started. *)
Definition spawn_fails : World :=
  world {| env_uuid := env_uuid quiet; env_mkdir := env_mkdir quiet;
           env_open := env_open quiet; env_send := env_send quiet;
           env_spawn := fun _ => Some "Resource temporarily unavailable";
           env_clock := env_clock quiet |}
    {[ "/spool/" := Dir ]}.

(** No file can be opened. *)
Definition read_only : World :=
  world {| env_uuid := env_uuid quiet; env_mkdir := env_mkdir quiet;
           env_open := fun _ => Some "Permission denied";
           env_send := env_send quiet; env_spawn := env_spawn quiet;
           env_clock := env_clock quiet |}
    {[ "/spool/" := Dir ]}.

(** No message can be sent. *)
Definition send_fails : World :=
  world {| env_uuid := env_uuid quiet; env_mkdir := env_mkdir quiet;
           env_open := env_open quiet;
           env_send := fun _ => Some "connection closed";
           env_spawn := env_spawn quiet; env_clock := env_clock quiet |}
    {[ "/spool/" := Dir ]}.


Definition args (m : Module) : TaskArgs :=
  {| ta_module := m; ta_action := "run"; ta_chunks := chunks;
     ta_job_id := "J1"; ta_results_dir := "/spool/J1"; ta_done := 0 |}.

(** The processor receives the sample request. *)
Definition request : M unit :=
  @processNonBlockingRequest externals "/spool/" echo "run" chunks.

Definition start (w : World) : Config :=
  {| c_main := request; c_tasks := []; c_world := w |}.

End Sample.

End RequestProcessor.

(** * src/agent/agent_endpoint.cpp *)

Module AgentEndpoint.

(** ** Data model *)

(** [Json::Value]; an object keeps its members in insertion order. *)
#[warnings="-register-all"]
Inductive Json :=
| JNull
| JBool (b : bool)
| JInt (n : Z)
| JString (s : string)
| JArray (items : list Json)
| JObject (members : list (string * Json)).

Fixpoint members_get (key : string) (l : list (string * Json)) : Json :=
  match l with
  | [] => JNull
  | (k, v) :: l' => if String.eqb k key then v else members_get key l'
  end.

Fixpoint members_set (key : string) (x : Json) (l : list (string * Json))
  : list (string * Json) :=
  match l with
  | [] => [(key, x)]
  | (k, v) :: l' =>
      if String.eqb k key then (k, x) :: l' else (k, v) :: members_set key x l'
  end.

(** [v[key]] read: the member, or null when there is none. The code
    reads members of documents that passed schema validation and of the
    responses it builds. *)
Definition json_get (v : Json) (key : string) : Json :=
  match v with
  | JObject l => members_get key l
  | _ => JNull
  end.

(** [v[key] = x]: sets the member of an object; a null value becomes an
    object first. The code assigns to null values and objects only. *)
Definition json_set (key : string) (x : Json) (v : Json) : Json :=
  match v with
  | JObject l => JObject (members_set key x l)
  | _ => JObject [(key, x)]
  end.

(** The two schemas of schemas.h. *)
Variant Schema := network_message | cnc_data.

(** Fixed outside this file: the JSON reader and writer, the conversion
    [asString] (which throws on values it cannot convert), and
    [Schemas::validate], which appends to the error vector it is given. *)
Class Externals := {
  reader_parse : string -> option Json;
  asString : Json -> exn + string;
  toStyledString : Json -> string;
  validate : Json -> Schema -> list string -> bool * list string }.

(** A module: [validate_and_call_action] gives the output or throws;
    [actions] are the names it offers. *)
Record Module := {
  validate_and_call_action : string -> Json -> exn + Json;
  actions : list string }.

Variant Level := DEBUG | INFO | WARNING | ERROR.

Variant Connection_State := connecting | open | closing | closed.

Global Instance Connection_State_eq_dec : EqDecision Connection_State.
Proof. solve_decision. Defined.

(** ** Primitive operations *)

Variant Op :=
| LOG (lvl : Level) (fmt : string) (args : list string)
| Module_validate_and_call_action
    (name : string) (m : Module) (action : string) (input : Json)
| Connection_getConnectionHandle
| Client_send (payload : string)
| Connection_getState
| CONNECTION_MANAGER_configureSecureEndpoint (ca crt key : string)
| CONNECTION_MANAGER_createConnection (url : string)
| Connection_setCallbacks
| CONNECTION_MANAGER_open
| Connection_waitForOpen
| sleep (seconds : nat)
| HeartbeatTask_start
| HeartbeatTask_stop
| CONNECTION_MANAGER_ping (binary_payload : string)
| must_stop_load.

Definition Resp (o : Op) : Type :=
  match o with
  | Module_validate_and_call_action _ _ _ _ => (exn + Json)%type
  | Client_send _ => (exn + unit)%type
  | Connection_getState => Connection_State
  | CONNECTION_MANAGER_configureSecureEndpoint _ _ _ => (exn + unit)%type
  | CONNECTION_MANAGER_open => (exn + unit)%type
  | Connection_waitForOpen => (exn + unit)%type
  | CONNECTION_MANAGER_ping _ => (exn + unit)%type
  | must_stop_load => bool
  | _ => unit
  end.

Abbreviation M := (Prog Op Resp).

Inductive Event :=
| EvLog (lvl : Level) (fmt : string) (args : list string)
| EvCall (name : string) (action : string) (input : Json) (r : exn + Json)
| EvHandle
| EvSend (payload : string) (r : exn + unit)
| EvState (st : Connection_State)
| EvConfigure (ca crt key : string) (r : exn + unit)
| EvCreateConnection (url : string)
| EvSetCallbacks
| EvOpen (r : exn + unit)
| EvWaitForOpen (r : exn + unit)
| EvSleep (seconds : nat)
| EvHeartbeatStart
| EvHeartbeatStop
| EvPing (binary_payload : string) (r : exn + unit)
| EvMustStop (b : bool).

Definition Ev (o : Op) : Resp o -> Event :=
  match o as o' return Resp o' -> Event with
  | LOG lvl fmt args => fun _ => EvLog lvl fmt args
  | Module_validate_and_call_action name _ action input =>
      EvCall name action input
  | Connection_getConnectionHandle => fun _ => EvHandle
  | Client_send payload => EvSend payload
  | Connection_getState => EvState
  | CONNECTION_MANAGER_configureSecureEndpoint ca crt key =>
      EvConfigure ca crt key
  | CONNECTION_MANAGER_createConnection url => fun _ => EvCreateConnection url
  | Connection_setCallbacks => fun _ => EvSetCallbacks
  | CONNECTION_MANAGER_open => EvOpen
  | Connection_waitForOpen => EvWaitForOpen
  | sleep n => fun _ => EvSleep n
  | HeartbeatTask_start => fun _ => EvHeartbeatStart
  | HeartbeatTask_stop => fun _ => EvHeartbeatStop
  | CONNECTION_MANAGER_ping binary_payload => EvPing binary_payload
  | must_stop_load => EvMustStop
  end.

(** ** The world

    What the network decides, as functions of the number of operations
    performed so far: the state of the connection, and whether
    configuring, opening, waiting for the open event, sending and pinging
    succeed (each [Some] is the exception thrown); and what the heartbeat
    thread reads in [must_stop_], which another thread sets. *)
Record Env := {
  env_state : nat -> Connection_State;
  env_configure : nat -> option string;
  env_open : nat -> option string;
  env_wait : nat -> option string;
  env_send : nat -> option exn;
  env_ping : nat -> option exn;
  env_must_stop : nat -> bool }.

Record World := {
  w_env : Env;
  w_step : nat;
  w_sent : list string;
  w_trace : list Event }.

Definition record (e : Event) (w : World) : World :=
  {| w_env := w_env w; w_step := S (w_step w); w_sent := w_sent w;
     w_trace := w_trace w ++ [e] |}.

Definition deliver (payload : string) (w : World) : World :=
  {| w_env := w_env w; w_step := w_step w;
     w_sent := w_sent w ++ [payload]; w_trace := w_trace w |}.

Definition failure (c : exn_class) (r : option string) : exn + unit :=
  match r with Some msg => inl (Exn c msg) | None => inr tt end.

(** The effect of one operation and its response: the module's method
    for a call; a send delivers the frame or throws what the network
    says; configuring throws [endpoint_error]; opening and waiting throw
    [connection_error]. *)
Definition perform (o : Op) (w : World) : Resp o * World :=
  match o as o' return Resp o' * World with
  | LOG _ _ _ => (tt, w)
  | Module_validate_and_call_action _ m action input =>
      (validate_and_call_action m action input, w)
  | Connection_getConnectionHandle => (tt, w)
  | Client_send payload =>
      match env_send (w_env w) (w_step w) with
      | Some e => (inl e, w)
      | None => (inr tt, deliver payload w)
      end
  | Connection_getState => (env_state (w_env w) (w_step w), w)
  | CONNECTION_MANAGER_configureSecureEndpoint _ _ _ =>
      (failure endpoint_error (env_configure (w_env w) (w_step w)), w)
  | CONNECTION_MANAGER_createConnection _ => (tt, w)
  | Connection_setCallbacks => (tt, w)
  | CONNECTION_MANAGER_open =>
      (failure connection_error (env_open (w_env w) (w_step w)), w)
  | Connection_waitForOpen =>
      (failure connection_error (env_wait (w_env w) (w_step w)), w)
  | sleep _ => (tt, w)
  | HeartbeatTask_start => (tt, w)
  | HeartbeatTask_stop => (tt, w)
  | CONNECTION_MANAGER_ping _ =>
      (match env_ping (w_env w) (w_step w) with
       | Some e => inl e
       | None => inr tt
       end, w)
  | must_stop_load => (env_must_stop (w_env w) (w_step w), w)
  end.

Definition handle (o : Op) (w : World) : Resp o * World :=
  let rw := perform o w in (rw.1, record (Ev o rw.1) rw.2).

Fixpoint run {A} (p : M A) (w : World) : Outcome A * World :=
  match p with
  | Ret a => (Returned a, w)
  | Throw e => (Threw e, w)
  | Vis o k => let (r, w') := handle o w in run (k r) w'
  end.

(** How a loop that may not end stands after a number of rounds. *)
Variant Progress :=
| Running
| Finished (o : Outcome unit).

(** [while (1) { body }], for at most [fuel] rounds: it finishes only if
    the body throws. *)
Fixpoint forever (fuel : nat) (body : M unit) (w : World) : Progress * World :=
  match fuel with
  | 0 => (Running, w)
  | S fuel' =>
      match run body w with
      | (Returned _, w') => forever fuel' body w'
      | (Threw e, w') => (Finished (Threw e), w')
      end
  end.

Definition events_since (w w' : World) : list Event :=
  drop (length (w_trace w)) (w_trace w').

(** ** The code *)

Section Code.
Context `{Ext : !Externals}.

Definition log (lvl : Level) (fmt : string) (args : list string) : M unit :=
  call (LOG lvl fmt args).

Definition call_action (name : string) (m : Module) (action : string)
    (input : Json) : M Json :=
  r ← call (Module_validate_and_call_action name m action input); lift r.

Definition getConnectionHandle : M unit :=
  call Connection_getConnectionHandle.

Definition client_send (payload : string) : M unit :=
  r ← call (Client_send payload); lift r.

Definition getState : M Connection_State := call Connection_getState.

Definition configureSecureEndpoint (ca crt key : string) : M unit :=
  r ← call (CONNECTION_MANAGER_configureSecureEndpoint ca crt key); lift r.

Definition createConnection (url : string) : M unit :=
  call (CONNECTION_MANAGER_createConnection url).

Definition setConnectionCallbacks : M unit := call Connection_setCallbacks.

Definition open_ : M unit := r ← call CONNECTION_MANAGER_open; lift r.

Definition waitForOpen : M unit := r ← call Connection_waitForOpen; lift r.

Definition sleep_ (seconds : nat) : M unit := call (sleep seconds).

(** [HeartbeatTask::start] and [HeartbeatTask::stop], lines 45-56. *)
Definition HeartbeatTask_start_ : M unit :=
  log INFO "starting the heartbeat task" [];;
  call HeartbeatTask_start.

Definition HeartbeatTask_stop_ : M unit :=
  log INFO "stopping the heartbeat task" [];;
  call HeartbeatTask_stop.

Definition ping (binary_payload : string) : M unit :=
  r ← call (CONNECTION_MANAGER_ping binary_payload); lift r.

Definition must_stop_ : M bool := call must_stop_load.

Definition DEFAULT_HEARTBEAT_PERIOD : nat := 30.

(** One round of [HeartbeatTask::heartbeatThread], lines 60-71. *)
Definition heartbeat_round (binary_payload_ : string) : M unit :=
  try_catch
    (st ← getState;
     if bool_decide (st = open) then ping binary_payload_
     else log DEBUG "skipping ping; connection is not open" [])
    (catch message_error (fun e => log ERROR (what e) []));;
  sleep_ DEFAULT_HEARTBEAT_PERIOD.

(** [HeartbeatTask::heartbeatThread], lines 58-73: [while (!must_stop_)],
    for at most [fuel] rounds. *)
Fixpoint heartbeatThread (fuel : nat) (binary_payload_ : string) (w : World)
  : Progress * World :=
  match fuel with
  | 0 => (Running, w)
  | S fuel' =>
      match run must_stop_ w with
      | (Returned true, w1) => (Finished (Returned tt), w1)
      | (Returned false, w1) =>
          match run (heartbeat_round binary_payload_) w1 with
          | (Returned _, w2) => heartbeatThread fuel' binary_payload_ w2
          | (Threw e, w2) => (Finished (Threw e), w2)
          end
      | (Threw e, w1) => (Finished (Threw e), w1)
      end
  end.

Definition cncschema : string := "http://puppetlabs.com/cncschema".

(** [for (auto error : errors) LOG_ERROR("    %1%", error)]. *)
Definition log_each (errors : list string) : M unit :=
  foldr (fun error rest => log ERROR "    %1%" [error];; rest) (mret tt)
    errors.

(** The response of [handle_message], lines 318-327. *)
Definition response_of (doc output : Json) : Json :=
  let response := JNull in
  let response := json_set "id" (JInt 2) response in
  let response := json_set "version" (JString "1") response in
  let response :=
    json_set "expires" (JString "2014-08-28T17:01:05Z") response in
  let response :=
    json_set "sender" (JString "cth://localhost/agent") response in
  let response := json_set "endpoints" (JArray []) response in
  let response :=
    json_set "endpoints" (JArray [json_get doc "sender"]) response in
  let response := json_set "hops" (JArray []) response in
  let response :=
    json_set "data_schema"
      (JString "http://puppetlabs.com/cncresponseschema") response in
  json_set "data" (json_set "response" output (json_get response "data"))
    response.

(** [for (auto error : errors) LOG_WARNING("    %1%", error)]. *)
Definition warn_each (errors : list string) : M unit :=
  foldr (fun error rest => log WARNING "    %1%" [error];; rest) (mret tt)
    errors.

(** The login message of [send_login], lines 217-226. *)
Definition login_message : Json :=
  let login := JNull in
  let login := json_set "id" (JInt 1) login in
  let login := json_set "version" (JString "1") login in
  let login := json_set "expires" (JString "2014-08-28T17:01:05Z") login in
  let login := json_set "sender" (JString "cth://localhost/agent") login in
  let login := json_set "endpoints" (JArray []) login in
  let login := json_set "endpoints" (JArray [JString "cth://server"]) login in
  let login := json_set "hops" (JArray []) login in
  let login :=
    json_set "data_schema" (JString "http://puppetlabs.com/loginschema")
      login in
  json_set "data" (json_set "type" (JString "agent") (json_get login "data"))
    login.

(** [AgentEndpoint::send_login], lines 216-252. *)
Definition send_login : M unit :=
  let login := login_message in
  log INFO ("login message:" +:+ nl +:+ "%1%") [toStyledString login];;
  let errors := [] in
  let '(valid, errors) := validate login network_message errors in
  (if negb valid then
     log WARNING "validation failed" [];;
     warn_each errors;;
     (* This is unexpected *)
     Throw (Exn fatal_error "invalid login message schema")
   else mret tt);;
  getConnectionHandle;;
  try_catch
    (client_send (toStyledString login))
    (catch message_error (fun e =>
       log WARNING "failed to send: %1%" [what e];;
       (* Fatal; we can't login... *)
       Throw (Exn fatal_error "failed to send login message"))).

(** [AgentEndpoint::handle_message], lines 254-345. *)
Definition handle_message (modules_ : gmap string Module) (message : string)
  : M unit :=
  log INFO ("received message:" +:+ nl +:+ "%1%") [message];;
  match reader_parse message with
  | None => log ERROR "json decode of message failed" []
  | Some doc =>
      let errors := [] in
      let '(valid, errors) := validate doc network_message errors in
      if negb valid then
        log ERROR "message schema validation failed" []
      else
        data_schema ← lift (asString (json_get doc "data_schema"));
        if negb (String.eqb cncschema data_schema) then
          log ERROR "message is not of cnc schema" []
        else
          let '(valid, errors) :=
            validate (json_get doc "data") cnc_data errors in
          if negb valid then
            log ERROR "data schema validation failed" [];;
            log_each errors
          else
            try_catch
              (module_name ←
                 lift (asString (json_get (json_get doc "data") "module"));
               action_name ←
                 lift (asString (json_get (json_get doc "data") "action"));
               output ←
                 match modules_ !! module_name with
                 | Some module =>
                     try_catch
                       (output ←
                          call_action module_name module action_name
                            (json_get (json_get doc "data") "params");
                        log DEBUG "%1% %2% output: %3%"
                          [module_name; action_name;
                           toStyledString output];;
                        mret output)
                       (catch validation_error (fun e =>
                          log ERROR "failed to perform '%1% %2%': %3%"
                            [module_name; action_name; what e];;
                          let err_result := JNull in
                          let err_result :=
                            json_set "error" (JString (what e)) err_result in
                          mret err_result))
                 | None =>
                     log ERROR "invalid request: unknown module %1%"
                       [module_name];;
                     let err_result := JNull in
                     let err_result :=
                       json_set "error"
                         (JString ("Unknown module: '" +:+ module_name
                                   +:+ "'"))
                         err_result in
                     mret err_result
                 end;
               let response := response_of doc output in
               let response_txt := toStyledString response in
               log INFO "sending response of size %1%"
                 [to_string (N.of_nat (String.length response_txt))];;
               log DEBUG ("response:" +:+ nl +:+ "%1%") [response_txt];;
               getConnectionHandle;;
               client_send response_txt)
              (or_catch
                 (catch message_error (fun e =>
                    log ERROR "failed to send: %1%" [what e]
                    (* we don't want to throw anything here *)))
                 (or_catch
                    (catch_std_exception (fun e =>
                       log ERROR "unexpected exception: %1%" [what e]))
                    (catch_all (log ERROR "badness occured" []))))
  end.

(** One round of [AgentEndpoint::monitorConnectionState], lines 397-411. *)
Definition monitor_round : M unit :=
  st ← getState;
  (if negb (bool_decide (st = open)) then
     log WARNING "agent is not connected; will try to reconnect in 2 s" [];;
     sleep_ 2;;
     try_catch
       (open_;;
        waitForOpen)
       (catch connection_error (fun e =>
          log WARNING "failed to reconnect; %1%" [what e];;
          Throw (Exn fatal_error "failed to reconnect")))
   else mret tt);;
  sleep_ 11.

(** [AgentEndpoint::monitorConnectionState], lines 395-413. *)
Definition monitorConnectionState (fuel : nat) (w : World)
  : Progress * World :=
  forever fuel monitor_round w.

(** The pong callbacks of [AgentEndpoint::setConnectionCallbacks], lines
    363-387, on the counter they share. The counter is an [int]: a 32-bit
    integer in two's complement, whose increment wraps around here (the
    language leaves it undefined at [INT_MAX]). *)
Definition INT_MAX : Z := 2147483647.

Definition int_wrap (z : Z) : Z :=
  ((z + 2147483648) mod 4294967296 - 2147483648)%Z.

Definition onPong_c (consecutive_pong_timeouts : Z) (binary_payload : string)
  : M Z :=
  log DEBUG "received pong - payload: '%1%'" [binary_payload];;
  if (0 <? consecutive_pong_timeouts)%Z then mret 0%Z
  else mret consecutive_pong_timeouts.

Definition onPongTimeout_c (consecutive_pong_timeouts : Z)
    (binary_payload : string) : M Z :=
  log WARNING "pong timeout (%1% consecutive) - payload: '%2%'"
    [NilEmpty.string_of_int (Z.to_int consecutive_pong_timeouts);
     binary_payload];;
  mret (int_wrap (consecutive_pong_timeouts + 1)).

(** What the connection reports to the callbacks. *)
Variant PongEvent :=
| Pong (binary_payload : string)
| PongTimeout (binary_payload : string).

(** The callbacks run one after the other (timeouts under the mutex),
    from the counter [std::make_shared<int>(0)]. *)
Fixpoint pong_callbacks (l : list PongEvent) (counter : Z) : M Z :=
  match l with
  | [] => mret counter
  | Pong payload :: l' =>
      counter ← onPong_c counter payload; pong_callbacks l' counter
  | PongTimeout payload :: l' =>
      counter ← onPongTimeout_c counter payload; pong_callbacks l' counter
  end.

(** [AgentEndpoint::connect_and_run] up to the monitoring loop, lines
    163-195. *)
Definition connect (url ca_crt_path client_crt_path client_key_path : string)
  : M unit :=
  (* Configure the secure WebSocket endpoint *)
  try_catch
    (configureSecureEndpoint ca_crt_path client_crt_path client_key_path)
    (catch endpoint_error (fun e =>
       log WARNING "failed to configure the WebSocket endpoint: %1%"
         [what e];;
       Throw (Exn fatal_error "failed to configure the WebSocket endpoint")));;
  (* Configure the connection *)
  createConnection url;;
  setConnectionCallbacks;;
  (* Connect and wait for open connection event *)
  try_catch
    (open_;;
     waitForOpen)
    (catch connection_error (fun e =>
       log WARNING "failed to connect; %1%" [what e];;
       Throw (Exn fatal_error "failed to connect")));;
  (* Start heartbeat task *)
  HeartbeatTask_start_.

(** [AgentEndpoint::connect_and_run], lines 163-200: once the heartbeat
    task exists, leaving the function, normally or not, destroys it, which
    stops it. *)
Definition connect_and_run
    (url ca_crt_path client_crt_path client_key_path : string)
    (fuel : nat) (w : World) : Progress * World :=
  match run (connect url ca_crt_path client_crt_path client_key_path) w with
  | (Threw e, w') => (Finished (Threw e), w')
  | (Returned _, w') =>
      match monitorConnectionState fuel w' with
      | (Running, w'') => (Running, w'')
      | (Finished o, w'') => (Finished o, (run HeartbeatTask_stop_ w'').2)
      end
  end.

(** ** Observations *)

(** The message fails one of the four checks of [handle_message]: it is
    not JSON, its envelope is not valid, its [data_schema] is not the cnc
    one, or its data are not valid. *)
Definition fails_validation (message : string) : Prop :=
  reader_parse message = None
  \/ exists doc,
      reader_parse message = Some doc
      /\ ((validate doc network_message []).1 = false
          \/ (validate doc network_message []).1 = true
             /\ exists data_schema,
                 asString (json_get doc "data_schema") = inr data_schema
                 /\ (data_schema <> cncschema
                     \/ (validate (json_get doc "data") cnc_data
                           (validate doc network_message []).2).1 = false)).

(** The message passes the four checks, and names a module and an
    action. *)
Definition cnc_request (message : string) (doc : Json)
    (module_name action_name : string) : Prop :=
  reader_parse message = Some doc
  /\ (validate doc network_message []).1 = true
  /\ asString (json_get doc "data_schema") = inr cncschema
  /\ (validate (json_get doc "data") cnc_data
        (validate doc network_message []).2).1 = true
  /\ asString (json_get (json_get doc "data") "module") = inr module_name
  /\ asString (json_get (json_get doc "data") "action") = inr action_name.

End Code.

Definition is_log (e : Event) : Prop :=
  match e with EvLog _ _ _ => True | _ => False end.

Definition is_error_log (e : Event) : Prop :=
  match e with EvLog ERROR _ _ => True | _ => False end.

(** The frames the agent tried to send, and the calls it made. *)
Definition sends_of (evs : list Event) : list string :=
  omap (fun e => match e with EvSend p _ => Some p | _ => None end) evs.

Definition calls_of (evs : list Event) : list (string * string) :=
  omap (fun e => match e with
                 | EvCall name action _ _ => Some (name, action)
                 | _ => None
                 end) evs.

(** The heartbeat tasks started and stopped. *)
Definition heartbeat_starts (evs : list Event) : list unit :=
  omap (fun e => match e with EvHeartbeatStart => Some tt | _ => None end)
    evs.

Definition heartbeat_stops (evs : list Event) : list unit :=
  omap (fun e => match e with EvHeartbeatStop => Some tt | _ => None end)
    evs.

(** The events of one round of the heartbeat thread that goes on to the
    next: a ping that returned, a ping that threw a [message_error],
    which is logged, or no ping because the connection was not open. *)
Definition heartbeat_round_events (payload : string) (evs : list Event)
  : Prop :=
  evs = [EvMustStop false; EvState open; EvPing payload (inr tt);
         EvSleep DEFAULT_HEARTBEAT_PERIOD]
  \/ (exists e,
        exn_cls e = message_error
        /\ evs = [EvMustStop false; EvState open; EvPing payload (inl e);
                  EvLog ERROR (what e) [];
                  EvSleep DEFAULT_HEARTBEAT_PERIOD])
  \/ (exists st,
        st <> open
        /\ evs = [EvMustStop false; EvState st;
                  EvLog DEBUG "skipping ping; connection is not open" [];
                  EvSleep DEFAULT_HEARTBEAT_PERIOD]).

(** The timeouts a list of reports starts with, and those it ends with:
    the timeouts since the last pong. *)
Fixpoint leading_timeouts (l : list PongEvent) : nat :=
  match l with
  | PongTimeout _ :: l' => S (leading_timeouts l')
  | _ => 0
  end.

Definition trailing_timeouts (l : list PongEvent) : nat :=
  leading_timeouts (reverse l).

(** The events a program adds, none of which starts or stops a
    heartbeat task. *)
Definition adds_quietly (w w' : World) : Prop :=
  exists evs,
    w_trace w' = w_trace w ++ evs
    /\ heartbeat_starts evs = [] /\ heartbeat_stops evs = [].

(** A reconnection attempt that failed: the last two events of a trace. *)
Definition reconnection_failed (trace : list Event) : Prop :=
  exists pre msg r,
    trace = pre ++ [r; EvLog WARNING "failed to reconnect; %1%" [msg]]
    /\ (r = EvOpen (inl (Exn connection_error msg))
        \/ r = EvWaitForOpen (inl (Exn connection_error msg))).

(** ** Sample data *)

Module Sample.

(** A writer, a conversion and two schemas, to run the code on examples. *)
Fixpoint show (v : Json) : string :=
  match v with
  | JNull => "null"
  | JBool b => if b then "true" else "false"
  | JInt n => NilEmpty.string_of_int (Z.to_int n)
  | JString s => "'" +:+ s +:+ "'"
  | JArray items =>
      "[" +:+
      (fix show_items (l : list Json) : string :=
         match l with
         | [] => EmptyString
         | x :: l' => show x +:+ "," +:+ show_items l'
         end) items
      +:+ "]"
  | JObject members =>
      "{" +:+
      (fix show_members (l : list (string * Json)) : string :=
         match l with
         | [] => EmptyString
         | (k, x) :: l' =>
             k +:+ ":" +:+ show x +:+ "," +:+ show_members l'
         end) members
      +:+ "}"
  end.

(** The document of the frame ["ping?"]. *)
Definition ping_doc : Json :=
  JObject [("sender", JString "cth://controller");
           ("data_schema", JString cncschema);
           ("data", JObject [("module", JString "ping");
                             ("action", JString "ping")])].

Definition is_string (v : Json) : bool :=
  match v with JString _ => true | _ => false end.

Definition externals : Externals :=
  {| reader_parse := fun message =>
       if String.eqb message "{}" then Some (JObject [])
       else if String.eqb message "ping?" then Some ping_doc
       else if String.eqb message "reboot?" then
         Some (JObject
                 [("sender", JString "cth://controller");
                  ("data_schema", JString cncschema);
                  ("data", JObject [("module", JString "reboot");
                                    ("action", JString "now")])])
       else None;
     asString := fun v =>
       match v with
       | JString s => inr s
       | JNull => inr EmptyString
       | _ => inl (Exn std_exception "Type is not convertible to string")
       end;
     toStyledString := show;
     validate := fun v schema errors =>
       match schema with
       | network_message =>
           if is_string (json_get v "sender")
              && is_string (json_get v "data_schema")
           then (true, errors)
           else (false, errors ++ ["missing envelope field"])
       | cnc_data =>
           if is_string (json_get v "module")
              && is_string (json_get v "action")
           then (true, errors)
           else (false, errors ++ ["missing module or action"])
       end |}.

(** The same, with schemas that accept everything and a frame whose
    [data_schema] is not a string. *)
Definition lax : Externals :=
  {| reader_parse := fun message =>
       if String.eqb message "odd" then
         Some (JObject [("data_schema", JObject [])])
       else None;
     asString := asString (Externals := externals);
     toStyledString := show;
     validate := fun _ _ errors => (true, errors) |}.

Definition ping : Module :=
  {| validate_and_call_action := fun _ _ => inr (JObject [("pong", JBool true)]);
     actions := ["ping"] |}.

Definition modules_ : gmap string Module := {[ "ping" := ping ]}.

(** A module that rejects its input, one that breaks, and one that
    throws an object that is no [std::exception]. *)
Definition strict : Module :=
  {| validate_and_call_action := fun _ _ =>
       inl (Exn validation_error "unknown action");
     actions := [] |}.

Definition broken : Module :=
  {| validate_and_call_action := fun _ _ =>
       inl (Exn std_exception "bad alloc");
     actions := ["ping"] |}.

Definition wild : Module :=
  {| validate_and_call_action := fun _ _ =>
       inl (Exn non_std_exception EmptyString);
     actions := ["ping"] |}.

(** A network on which everything works and the connection stays open. *)
Definition quiet : Env :=
  {| env_state := fun _ => open;
     env_configure := fun _ => None;
     env_open := fun _ => None;
     env_wait := fun _ => None;
     env_send := fun _ => None;
     env_ping := fun _ => None;
     env_must_stop := fun _ => false |}.

(** The connection is found closed at every check, and cannot be
    reopened from the tenth operation on. *)
Definition flaky : Env :=
  {| env_state := fun _ => closed;
     env_configure := fun _ => None;
     env_open := fun n => if Nat.leb 10 n then Some "timed out" else None;
     env_wait := fun _ => None;
     env_send := fun _ => None;
     env_ping := fun _ => None;
     env_must_stop := fun _ => false |}.

(** The connection is found closed at every check and can always be
    reopened. *)
Definition dropping : Env :=
  {| env_state := fun _ => closed;
     env_configure := fun _ => None;
     env_open := fun _ => None;
     env_wait := fun _ => None;
     env_send := fun _ => None;
     env_ping := fun _ => None;
     env_must_stop := fun _ => false |}.

(** The connection is found closed, opens, and never reports open. *)
Definition stalled : Env :=
  {| env_state := fun _ => closed;
     env_configure := fun _ => None;
     env_open := fun _ => None;
     env_wait := fun _ => Some "handshake timed out";
     env_send := fun _ => None;
     env_ping := fun _ => None;
     env_must_stop := fun _ => false |}.

(** Nothing can be sent. *)
Definition offline : Env :=
  {| env_state := fun _ => closed;
     env_configure := fun _ => None;
     env_open := fun _ => None;
     env_wait := fun _ => None;
     env_send := fun _ => Some (Exn message_error "not connected");
     env_ping := fun _ => None;
     env_must_stop := fun _ => false |}.

Definition world (env : Env) : World :=
  {| w_env := env; w_step := 0; w_sent := []; w_trace := [] |}.

End Sample.

End AgentEndpoint.

(** * Facts about exceptions *)

Lemma catch_same {Op Resp A} c (h : exn -> Prog Op Resp A) msg :
  catch c h (Exn c msg) = Some (h (Exn c msg)).
Proof. unfold catch. simpl. by rewrite decide_True. Qed.

Lemma catch_std_exception_std {Op Resp A} (h : exn -> Prog Op Resp A) msg :
  catch_std_exception h (Exn std_exception msg)
  = Some (h (Exn std_exception msg)).
Proof. reflexivity. Qed.

(** * Facts about lib/src/request_processor.cc *)

Module RequestProcessorFacts.
Import RequestProcessor.

(** ** Running programs *)

Lemma run_bind {A B} t (p : M A) (f : A -> M B) w :
  run t (p ≫= f) w =
  match run t p w with
  | (Returned a, w') => run t (f a) w'
  | (Threw e, w') => (Threw e, w')
  end.
Proof.
  revert w. induction p as [a|e|o k IH]; intros w; try reflexivity.
  change (Vis o k ≫= f) with (Vis o (fun r => k r ≫= f)). simpl.
  destruct (handle t o w) as [r w']. apply IH.
Qed.

Lemma run_try_catch {A} t (p : M A) h w :
  run t (try_catch p h) w =
  match run t p w with
  | (Returned a, w') => (Returned a, w')
  | (Threw e, w') =>
      match h e with Some q => run t q w' | None => (Threw e, w') end
  end.
Proof.
  revert w. induction p as [a|e|o k IH]; intros w; simpl.
  - reflexivity.
  - destruct (h e); reflexivity.
  - destruct (handle t o w) as [r w']. apply IH.
Qed.

(** A run only appends to the trace. *)
Lemma run_trace {A} t (p : M A) w :
  w_trace (run t p w).2 =
  w_trace w ++ events_since w (run t p w).2.
Proof.
  unfold events_since.
  assert (exists l, w_trace (run t p w).2 = w_trace w ++ l) as [l Hl].
  { revert w. induction p as [a|e|o k IH]; intros w; simpl;
      try (exists []; by rewrite app_nil_r).
    unfold handle. cbn zeta. destruct (perform o w) as [r w1] eqn:Hp.
    simpl. destruct (IH r (record (Ev t o r) w1)) as [l Hl].
    exists (Ev t o r :: l). rewrite Hl. simpl.
    assert (w_trace w1 = w_trace w) as ->.
    { destruct o; simpl in Hp; repeat case_match; simplify_eq; done. }
    by rewrite <- app_assoc. }
  rewrite Hl. by rewrite drop_app_length.
Qed.

(** ** Containers *)

Lemma dc_lookup_set_eq key v d : dc_lookup key (dc_set key v d) = Some v.
Proof.
  induction d as [|[k v'] d IH]; simpl.
  - by rewrite String.eqb_refl.
  - destruct (String.eqb k key) eqn:E; simpl; by rewrite E.
Qed.

Lemma dc_lookup_set_ne key key' v d :
  key <> key' -> dc_lookup key' (dc_set key v d) = dc_lookup key' d.
Proof.
  intros Hne. induction d as [|[k v'] d IH]; simpl.
  - by apply String.eqb_neq in Hne as ->.
  - destruct (String.eqb k key) eqn:E; simpl.
    + apply String.eqb_eq in E as ->.
      by apply String.eqb_neq in Hne as ->.
    + by rewrite IH.
Qed.

Lemma get_string_set_eq key s d : get_string (set_string key s d) key = s.
Proof. unfold get_string, set_string. by rewrite dc_lookup_set_eq. Qed.

Lemma get_string_set_ne key key' s d :
  key <> key' -> get_string (set_string key s d) key' = get_string d key'.
Proof.
  intros. unfold get_string, set_string. by rewrite dc_lookup_set_ne.
Qed.

(** [wrapDebug] copies the debug chunks one by one. *)
Lemma foldl_snoc {A} (l acc : list A) :
  foldl (fun dbg debug_entry => dbg ++ [debug_entry]) acc l = acc ++ l.
Proof.
  revert acc. induction l as [|x l IH]; intros acc; simpl.
  - by rewrite app_nil_r.
  - rewrite IH. by rewrite <- app_assoc.
Qed.

(** Two files of one directory are different files. *)
Lemma path_ne (dir a b : string) : a <> b -> dir +:+ a <> dir +:+ b.
Proof.
  intros Hne Heq. apply Hne. induction dir as [|c dir IH]; simpl in Heq.
  - done.
  - injection Heq as Heq. auto.
Qed.

(** ** One equation for each call *)

Section RunEquations.
Context `{!Externals}.

Lemma run_ret {A} t (a : A) w : run t (mret a) w = (Returned a, w).
Proof. reflexivity. Qed.

Lemma run_throw {A} t e w : run t (Throw e : M A) w = (Threw e, w).
Proof. reflexivity. Qed.

Lemma run_getUUID t w :
  run t getUUID w =
  (Returned (env_uuid (w_env w) (now w)),
   record (EvUUID t (env_uuid (w_env w) (now w))) w).
Proof. reflexivity. Qed.

Lemma run_exists t p w :
  run t (exists_ p) w =
  (Returned (bool_decide (is_Some (w_fs w !! p))),
   record (EvExists t p (bool_decide (is_Some (w_fs w !! p)))) w).
Proof. reflexivity. Qed.

Lemma run_createDirectory t d w :
  run t (createDirectory d) w =
  if env_mkdir (w_env w) (now w)
  then (Returned true,
        record (EvCreateDirectory t d true) (set_fs (insert d Dir) w))
  else (Returned false, record (EvCreateDirectory t d false) w).
Proof.
  unfold createDirectory, call. simpl. unfold handle. simpl.
  by destruct (env_mkdir _ _).
Qed.

Lemma run_writeToFile t text p w :
  run t (writeToFile text p) w =
  match env_open (w_env w) (now w) with
  | Some msg =>
      (Threw (Exn file_error msg),
       record (EvWrite t text p (inl (Exn file_error msg))) w)
  | None =>
      (Returned tt,
       record (EvWrite t text p (inr tt))
         (set_fs (insert p (File text)) w))
  end.
Proof.
  unfold writeToFile, call. simpl. unfold handle. simpl.
  by destruct (env_open _ _).
Qed.

Lemma run_send t targets ty timeout payload dbg w :
  let m := {| msg_targets := targets; msg_type := ty;
              msg_timeout := timeout; msg_data := payload;
              msg_debug := dbg |} in
  run t (send targets ty timeout payload dbg) w =
  match env_send (w_env w) (now w) with
  | Some msg =>
      (Threw (Exn connection_error msg),
       record (EvSend t m (inl (Exn connection_error msg))) w)
  | None =>
      (Returned tt,
       record (EvSend t m (inr tt)) (set_outbox (fun l => l ++ [m]) w))
  end.
Proof.
  unfold send, call. simpl. unfold handle. simpl.
  by destruct (env_send _ _).
Qed.

Lemma run_execute t m a c w :
  run t (execute m a c) w =
  match executeAction m a c with
  | inl e => (Threw e, record (EvExecute t m a c (inl e)) w)
  | inr o => (Returned o, record (EvExecute t m a c (inr o)) w)
  end.
Proof.
  unfold execute, call. simpl. unfold handle. simpl.
  by destruct (executeAction _ _ _).
Qed.

Lemma run_new_atomic_bool t w :
  run t new_atomic_bool w =
  (Returned (length (w_flags w)),
   record (EvNewFlag t (length (w_flags w)))
     (set_flags (fun l => l ++ [false]) w)).
Proof. reflexivity. Qed.

Lemma run_store_true t f w :
  run t (store_true f) w =
  (Returned tt,
   record (EvStoreTrue t f) (set_flags (fun l => <[f := true]> l) w)).
Proof. reflexivity. Qed.

Lemma run_thread_container_add t args w :
  run t (thread_container_add args) w =
  match env_spawn (w_env w) (now w) with
  | Some msg =>
      (Threw (Exn std_exception msg),
       record (EvThreadAdd t args (inl (Exn std_exception msg))) w)
  | None =>
      (Returned tt,
       record (EvThreadAdd t args (inr tt))
         (set_threads (fun l => l ++ [args]) w))
  end.
Proof.
  unfold thread_container_add, call. simpl. unfold handle. simpl.
  by destruct (env_spawn _ _).
Qed.

Lemma run_log t lvl fmt args w :
  run t (log lvl fmt args) w =
  (Returned tt, record (EvLog t lvl fmt args) w).
Proof. reflexivity. Qed.

Lemma run_Timer_new t w :
  run t Timer_new w =
  (Returned (env_clock (w_env w) (now w)),
   record (EvClock t (env_clock (w_env w) (now w))) w).
Proof. reflexivity. Qed.

Lemma run_Timer_elapsedSeconds t start w :
  run t (Timer_elapsedSeconds start) w =
  (Returned ((env_clock (w_env w) (now w) - start) / 1000)%N,
   record (EvClock t (env_clock (w_env w) (now w))) w).
Proof. reflexivity. Qed.

End RunEquations.

(** ** Symbolic execution

    A run is unfolded at its head only, one equation at a time; what the
    world or the data decides is split on. *)

Ltac world_simpl H :=
  cbn [w_env w_step now w_fs w_flags w_outbox w_threads w_trace
       record set_fs set_flags set_outbox set_threads exn_cls what] in H.

Ltac split_on_world H :=
  lazymatch type of H with
  | context [match ?f (w_env ?w) ?n with _ => _ end] =>
      destruct (f (w_env w) n) eqn:?
  end.

Ltac run_head H :=
  lazymatch type of H with
  | context [run ?t (mbind ?f ?p) ?w] => rewrite (run_bind t p f w) in H
  | context [run ?t (try_catch ?p ?h) ?w] =>
      rewrite (run_try_catch t p h w) in H
  | context [run ?t (mret ?a) ?w] => rewrite (run_ret t a w) in H
  | context [run ?t (Throw ?e) ?w] => rewrite (run_throw t e w) in H
  | context [run ?t getUUID ?w] =>
      rewrite (run_getUUID t w) in H; world_simpl H
  | context [run ?t (exists_ ?p) ?w] =>
      rewrite (run_exists t p w) in H; world_simpl H
  | context [run ?t (createDirectory ?d) ?w] =>
      rewrite (run_createDirectory t d w) in H; world_simpl H; split_on_world H
  | context [run ?t (writeToFile ?x ?p) ?w] =>
      rewrite (run_writeToFile t x p w) in H; world_simpl H; split_on_world H
  | context [run ?t (send ?a ?b ?c ?d ?e) ?w] =>
      rewrite (run_send t a b c d e w) in H; world_simpl H; split_on_world H
  | context [run ?t (execute ?m ?a ?c) ?w] =>
      rewrite (run_execute t m a c w) in H;
      destruct (executeAction m a c) eqn:?
  | context [run ?t new_atomic_bool ?w] =>
      rewrite (run_new_atomic_bool t w) in H
  | context [run ?t (store_true ?f) ?w] =>
      rewrite (run_store_true t f w) in H
  | context [run ?t (thread_container_add ?a) ?w] =>
      rewrite (run_thread_container_add t a w) in H; world_simpl H; split_on_world H
  | context [run ?t (log ?l ?f ?a) ?w] => rewrite (run_log t l f a w) in H
  | context [run ?t Timer_new ?w] => rewrite (run_Timer_new t w) in H
  | context [run ?t (Timer_elapsedSeconds ?s) ?w] =>
      rewrite (run_Timer_elapsedSeconds t s w) in H
  | context [run ?t (if ?b then _ else _) ?w] => destruct b eqn:?
  | context [run ?t (match ?x with _ => _ end) ?w] => destruct x eqn:?
  | context [match catch ?c ?h (Exn ?c ?msg) with _ => _ end] =>
      rewrite (catch_same c h msg) in H
  | context [match catch ?c ?h ?e with _ => _ end] =>
      unfold catch at 1 in H;
      destruct (decide (exn_cls e = c)) as [?|?]
  | context [match catch_std_exception ?h (Exn std_exception ?msg)
             with _ => _ end] =>
      rewrite (catch_std_exception_std h msg) in H
  | context [match catch_std_exception ?h ?e with _ => _ end] =>
      unfold catch_std_exception at 1 in H;
      destruct (decide (exn_cls e = non_std_exception)) as [?|?]
  end;
  cbv beta iota in H;
  cbn [empty negb type stderr stdout results default_outcome] in H.

(** The sends of a thread in an explicit trace. *)
Ltac show_sends :=
  unfold sends_of; cbn [omap sent_by list_omap];
  repeat (rewrite decide_True by reflexivity); cbn [omap list_omap].

Ltac elem_cases H :=
  repeat (apply elem_of_cons in H as [H|H]; [try discriminate H|]);
  try (apply elem_of_nil in H; destruct H).

Ltac lookup_file :=
  repeat (rewrite lookup_insert_ne by (by apply path_ne));
  apply lookup_insert_eq.

Ltac run_all H := repeat (run_head H; try discriminate H).

(** The trace of the world a run ends in, as the old trace and the new
    events. *)
Ltac show_events :=
  unfold events_since;
  cbn [w_trace w_flags w_fs w_outbox w_threads w_step w_env
       record set_fs set_flags set_outbox set_threads];
  rewrite <- ?app_assoc; cbn [app];
  rewrite ?drop_app_length.

Section Processor.
Context `{!Externals}.

Ltac split_trace n k :=
  lazymatch goal with
  | |- exists pre status streams, ?L = _ /\ _ =>
      exists (take n L); eexists; exists (take k (drop (S n) L));
      split; [cbn [take drop app]; reflexivity|]
  end.

Ltac finish_leaf Hflag :=
  split; [rewrite get_string_set_ne by done; apply get_string_set_eq|];
  split; [discriminate|];
  split; [repeat (constructor;
                  [eexists; first [by left | by right]|]); constructor|];
  split; [repeat (constructor; [intros; discriminate|]); constructor|];
  apply list_lookup_insert_eq; by eapply lookup_lt_Some.

Ltac try_splits n Hflag :=
  first [ split_trace n 1%nat; solve [finish_leaf Hflag]
        | split_trace n 2%nat; solve [finish_leaf Hflag]
        | lazymatch n with S ?m => try_splits m Hflag end ].

(** C1: in every run of a task that returns, with the flag false at the
    start, the events of the run end with the write of the final status
    ([completed]), then the writes of the stream files, all of which
    returned, then the store of [true] into the task's flag; no earlier
    event of the run stores into that flag, and the flag is true at the
    end. This holds whether the action returned or threw a
    [request_error]. *)
Theorem done_flag_set_once_and_last a t w w' :
  w_flags w !! ta_done a = Some false ->
  run t (task a) w = (Returned tt, w') ->
  exists pre status streams,
    events_since w w' =
      pre ++ [EvWrite t (toString status +:+ nl)
                (ta_results_dir a +:+ "/status") (inr tt)]
          ++ streams ++ [EvStoreTrue t (ta_done a)]
    /\ get_string status "status" = "completed"
    /\ streams <> [] /\ Forall (is_stream_write t (ta_results_dir a)) streams
    /\ Forall (fun e => forall t', e <> EvStoreTrue t' (ta_done a)) pre
    /\ w_flags w' !! ta_done a = Some true.
Proof.
  intros Hflag Hrun. unfold task, nonBlockingActionTask in Hrun.
  destruct a as [m act chunks job dir d].
  cbn [ta_module ta_action ta_chunks ta_job_id ta_results_dir ta_done] in *.
  run_all Hrun.
  all: injection Hrun as <-; show_events.
  all: try_splits 14%nat Hflag.
Qed.

Ltac split_timed k :=
  lazymatch goal with
  | |- exists pre mid post t0 t1 r status secs, ?L = _ /\ _ =>
      exists (take 3 L), (take k (drop 5 L)), (drop (k + 7) L);
      do 5 eexists; split; [cbn [take drop app Nat.add]; reflexivity|]
  end.

Ltac finish_timed :=
  split; [rewrite get_string_set_ne by done; apply get_string_set_eq|];
  split; [apply get_string_set_eq|];
  split; [split; [apply N.Div0.mul_div_le
                 | by apply N.mul_succ_div_gt]|];
  split; [cbn [drop];
          repeat (constructor;
                  [intros ? ? [=]; by eapply path_ne; [|eassumption]|]);
          constructor|];
  repeat (rewrite lookup_insert_ne by (by apply path_ne));
  apply lookup_insert_eq.

Ltac try_timed k :=
  first [ split_timed k; solve [finish_timed]
        | lazymatch k with S ?m => try_timed m end ].

(** C6: in every run of a task that returns, the clock is read just
    before the action is executed ([t0]) and again just before the last
    write of the status file ([t1]); the status written there is
    [completed], and its duration is [secs] followed by [" s"], where
    [secs] is the integer part of [(t1 - t0) / 1000]. That write is the
    last one to the status file, and its text is what the file holds at
    the end. *)
Theorem final_status_completed_floor_duration a t w w' :
  run t (task a) w = (Returned tt, w') ->
  exists pre mid post t0 t1 r status secs,
    events_since w w' =
      pre ++ [EvClock t t0;
              EvExecute t (ta_module a) (ta_action a) (ta_chunks a) r]
          ++ mid
          ++ [EvClock t t1;
              EvWrite t (toString status +:+ nl)
                (ta_results_dir a +:+ "/status") (inr tt)]
          ++ post
    /\ get_string status "status" = "completed"
    /\ get_string status "duration" = to_string secs +:+ " s"
    /\ (1000 * secs <= t1 - t0 < 1000 * N.succ secs)%N
    /\ Forall (fun e => forall text r',
                 e <> EvWrite t text (ta_results_dir a +:+ "/status") r')
         post
    /\ w_fs w' !! (ta_results_dir a +:+ "/status")
       = Some (File (toString status +:+ nl)).
Proof.
  intros Hrun. unfold task, nonBlockingActionTask in Hrun.
  destruct a as [m act chunks job dir d].
  cbn [ta_module ta_action ta_chunks ta_job_id ta_results_dir ta_done] in *.
  run_all Hrun.
  all: injection Hrun as <-; show_events.
  all: try_timed 4%nat.
Qed.

(** The third event of a task is the write of the initial status, after
    the two empty stream files. That status names the module and the
    action, says [running] and ["0 s"], and its input is the serialized
    params of the request, or ["none"] when that text is empty. *)
Lemma initial_status_input a t w out w' e :
  run t (task a) w = (out, w') ->
  events_since w w' !! 2%nat = Some e ->
  exists status r,
    e = EvWrite t (toString status +:+ nl)
          (ta_results_dir a +:+ "/status") r
    /\ take 2 (events_since w w') =
         [EvWrite t EmptyString (ta_results_dir a +:+ "/stdout") (inr tt);
          EvWrite t EmptyString (ta_results_dir a +:+ "/stderr") (inr tt)]
    /\ get_string status "module" = module_name (ta_module a)
    /\ get_string status "action" = ta_action a
    /\ get_string status "status" = "running"
    /\ get_string status "duration" = "0 s"
    /\ get_string status "input" =
         let request_input_txt :=
           toString (get_data (data (ta_chunks a)) "params") in
         if empty request_input_txt then "none" else request_input_txt.
Proof.
  intros Hrun He. unfold task, nonBlockingActionTask in Hrun.
  destruct a as [m act chunks job dir d].
  cbn [ta_module ta_action ta_chunks ta_job_id ta_results_dir ta_done] in *.
  run_all Hrun.
  all: injection Hrun as <- <-; revert He; show_events; intros He.
  all: try discriminate He.
  all: injection He as <-; do 2 eexists.
  all: split; [reflexivity|]; split; [reflexivity|].
  all: destruct (empty (toString (get_data (data chunks) "params")));
    repeat split; reflexivity.
Qed.

(** C7: the emptiness the task tests is that of the serialized text, not
    of the params. Whenever the serialized params are not the empty
    string, which holds for the empty object of a JSON writer, the input
    of the initial status is that text: ["none"] is not written. *)
Theorem nonempty_serialization_recorded_as_input a t w out w' e :
  toString (get_data (data (ta_chunks a)) "params") <> EmptyString ->
  run t (task a) w = (out, w') ->
  events_since w w' !! 2%nat = Some e ->
  exists status r,
    e = EvWrite t (toString status +:+ nl)
          (ta_results_dir a +:+ "/status") r
    /\ get_string status "status" = "running"
    /\ get_string status "input"
       = toString (get_data (data (ta_chunks a)) "params").
Proof.
  intros Htxt Hrun He.
  destruct (initial_status_input a t w out w' e Hrun He)
    as (status & r & Hev & _ & _ & _ & Hst & _ & Hin).
  exists status, r. split; [exact Hev|]. split; [exact Hst|].
  rewrite Hin. cbv zeta.
  by destruct (toString (get_data (data (ta_chunks a)) "params")).
Qed.

(** When the action throws a [request_error] with a message, the task
    sends the one [rpc_error] message, whose description is the message,
    and leaves in the stderr file the line
    ["Failed to execute '<module> <action>': <message>"]. *)
Theorem request_error_reported a t w w' err :
  executeAction (ta_module a) (ta_action a) (ta_chunks a)
    = inl (Exn request_error err) ->
  err <> EmptyString ->
  run t (task a) w = (Returned tt, w') ->
  sends_of t (events_since w w') = [rpc_error_message (ta_chunks a) err]
  /\ w_fs w' !! (ta_results_dir a +:+ "/stderr")
     = Some (File (("Failed to execute '" +:+ module_name (ta_module a)
                    +:+ " " +:+ ta_action a +:+ "': " +:+ err) +:+ nl)).
Proof.
  intros Hex Hne Hrun. unfold task, nonBlockingActionTask in Hrun.
  destruct a as [m act chunks job dir d].
  cbn [ta_module ta_action ta_chunks ta_job_id ta_results_dir ta_done] in *.
  run_all Hrun.
  all: simplify_eq/=.
  all: try by destruct err.
  all: show_events; split; [show_sends; reflexivity | lookup_file].
Qed.

(** C5: when the action throws a [request_error] whose message is empty,
    the task still sends the one [rpc_error] message, with an empty
    description, but then takes the error message for the absence of an
    error: the stderr file keeps its empty content, and no text is ever
    written to it. *)
Theorem empty_request_error_not_reported a t w w' :
  executeAction (ta_module a) (ta_action a) (ta_chunks a)
    = inl (Exn request_error EmptyString) ->
  run t (task a) w = (Returned tt, w') ->
  sends_of t (events_since w w')
    = [rpc_error_message (ta_chunks a) EmptyString]
  /\ w_fs w' !! (ta_results_dir a +:+ "/stderr") = Some (File EmptyString)
  /\ Forall (fun e => forall text r,
               e = EvWrite t text (ta_results_dir a +:+ "/stderr") r ->
               text = EmptyString)
       (events_since w w').
Proof.
  intros Hex Hrun. unfold task, nonBlockingActionTask in Hrun.
  destruct a as [m act chunks job dir d].
  cbn [ta_module ta_action ta_chunks ta_job_id ta_results_dir ta_done] in *.
  run_all Hrun.
  all: simplify_eq/=.
  all: show_events.
  all: split; [show_sends; reflexivity|].
  all: split; [lookup_file|].
  all: repeat (constructor;
               [intros ? ? [=]; subst; try done;
                by (exfalso; eapply path_ne; [|eassumption])|]);
       constructor.
Qed.

(** C4: of the two failures of [processNonBlockingRequest], only the
    failure to start the task is answered. When adding the thread throws,
    the function returns and its one message is the provisional response
    with [success = false], the job id and the error
    ["failed to start action task: <what>"]. When the directory cannot be
    created, the function throws [request_processing_error] and sends
    nothing. *)
Theorem spawn_failure_replied_mkdir_failure_thrown
    spool m act chunks w out w' :
  run MainThread (processNonBlockingRequest spool m act chunks) w
    = (out, w') ->
  (forall args e,
     EvThreadAdd MainThread args (inl e) ∈ events_since w w' ->
     out = Returned tt
     /\ exists payload,
         sends_of MainThread (events_since w w')
           = [provisional_message chunks payload]
         /\ get_string payload "transaction_id"
            = get_string (data chunks) "transaction_id"
         /\ get_bool payload "success" = false
         /\ get_string payload "job_id" = ta_job_id args
         /\ get_string payload "error"
            = "failed to start action task: " +:+ what e)
  /\ (forall d,
       EvCreateDirectory MainThread d false ∈ events_since w w' ->
       out = Threw (Exn request_processing_error
                      ("failed to create directory '" +:+ d +:+ "'"))
       /\ sends_of MainThread (events_since w w') = []).
Proof.
  intros Hrun. unfold processNonBlockingRequest, wrapDebug in Hrun.
  run_all Hrun.
  all: injection Hrun as <- <-; show_events.
  all: split; [intros args e He | intros d' He]; elem_cases He.
  all: simplify_eq.
  all: split; [reflexivity|].
  all: try (show_sends; reflexivity).
  all: eexists; split;
    [show_sends; unfold provisional_message;
     rewrite foldl_snoc; reflexivity|].
  all: repeat split; reflexivity.
Qed.

Ltac show_uuids :=
  unfold drawn_uuids; cbn [omap list_omap].

(** C3: [processNonBlockingRequest] draws exactly one UUID, and every
    message it sends is a provisional response carrying that UUID as the
    job id. When the directory of that job exists already, nothing is
    created, the function returns and one message is sent. The function
    throws only when the directory was absent and could not be created,
    and then it throws [request_processing_error]. *)
Theorem existing_spool_dir_is_reused spool m act chunks w out w' :
  run MainThread (processNonBlockingRequest spool m act chunks) w
    = (out, w') ->
  let job_id := env_uuid (w_env w) (now w) in
  drawn_uuids (events_since w w') = [job_id]
  /\ (forall msg,
       msg ∈ sends_of MainThread (events_since w w') ->
       msg_type msg = PROVISIONAL_RESPONSE_TYPE
       /\ get_string (msg_data msg) "job_id" = job_id)
  /\ (is_Some (w_fs w !! (spool +:+ job_id)) ->
      out = Returned tt
      /\ (forall d r,
           EvCreateDirectory MainThread d r ∉ events_since w w')
      /\ length (sends_of MainThread (events_since w w')) = 1%nat)
  /\ (forall e,
       out = Threw e ->
       w_fs w !! (spool +:+ job_id) = None
       /\ EvCreateDirectory MainThread (spool +:+ job_id) false
          ∈ events_since w w'
       /\ e = Exn request_processing_error
               ("failed to create directory '" +:+ (spool +:+ job_id)
                +:+ "'")).
Proof.
  intros Hrun job_id. subst job_id.
  unfold processNonBlockingRequest, wrapDebug in Hrun.
  run_all Hrun.
  all: injection Hrun as <- <-; show_events.
  all: split; [show_uuids; reflexivity|].
  all: split; [intros msg Hm; revert Hm; show_sends; intros Hm;
               elem_cases Hm; subst msg; split; reflexivity|].
  all: split;
    [intros Hsome;
     first
       [ by apply negb_true_iff, bool_decide_eq_false in Heqb
       | split; [reflexivity|];
         split; [intros d r Hd; elem_cases Hd | show_sends; reflexivity] ]
    |intros e He;
     first
       [ discriminate He
       | injection He as <-;
         apply negb_true_iff, bool_decide_eq_false in Heqb;
         split; [by apply eq_None_not_Some|];
         split; [|reflexivity];
         repeat (apply elem_of_cons; first [by left | right]) ]].
Qed.

(** ** Threads sharing the world *)





Lemma handle_world t o w :
  (handle t o w).2 = record (Ev t o (perform o w).1) (perform o w).2.
Proof. reflexivity. Qed.







(** *** Rules for [guarded] *)

Section GuardedRules.
Context `{!Externals}.
Variable ok : list string -> Op -> Prop.





End GuardedRules.








(** ** The constructor and blocking requests *)


(** An exception of the action leaves [processBlockingRequest] as it
    is: the call of the action is the only thing done, and nothing is
    sent. *)
Theorem blocking_request_error_propagates m act chunks w e :
  executeAction m act chunks = inl e ->
  exists w',
    run MainThread (processBlockingRequest m act chunks) w = (Threw e, w')
    /\ events_since w w' = [EvExecute MainThread m act chunks (inl e)]
    /\ w_outbox w' = w_outbox w.
Proof.
  intros Hex.
  destruct (run MainThread (processBlockingRequest m act chunks) w)
    as [out w'] eqn:Hrun.
  unfold processBlockingRequest, wrapDebug in Hrun.
  run_all Hrun.
  all: simplify_eq.
  all: eexists; split; [reflexivity|].
  all: split; [show_events; reflexivity | reflexivity].
Qed.

(** When the action returns, [processBlockingRequest] returns too, after
    trying once to send the blocking response, which carries the
    transaction id, the results and the debug chunks of the request. A
    failed send is only logged. *)
Theorem blocking_response_sent_once m act chunks w out w' outcome :
  executeAction m act chunks = inr outcome ->
  run MainThread (processBlockingRequest m act chunks) w = (out, w') ->
  out = Returned tt
  /\ sends_of MainThread (events_since w w')
     = [blocking_message chunks outcome]
  /\ (w_outbox w' = w_outbox w ++ [blocking_message chunks outcome]
      \/ w_outbox w' = w_outbox w
         /\ exists args,
             last (events_since w w') = Some (EvLog MainThread ERROR
               "Failed to reply to blocking request %1% from %2%, transaction %3%: %4%"
               args)).
Proof.
  intros Hex Hrun.
  unfold processBlockingRequest, wrapDebug in Hrun.
  run_all Hrun.
  all: simplify_eq.
  all: split; [reflexivity|].
  all: rewrite foldl_snoc; cbn [app].
  all: split; [show_events; show_sends; reflexivity|].
  all: first [ left; reflexivity
             | right; split; [reflexivity|]; show_events; by eexists ].
Qed.

(** [wrapDebug] gives back the debug chunks of the request, in order,
    and throws nothing; it logs one warning exactly when the request
    came with invalid debug chunks. *)
Theorem wrapDebug_copies_and_warns t chunks w :
  exists w',
    run t (wrapDebug chunks) w = (Returned (debug chunks), w')
    /\ w_fs w' = w_fs w /\ w_outbox w' = w_outbox w
    /\ events_since w w'
       = if Nat.eqb (num_invalid_debug chunks) 0 then []
         else [EvLog t WARNING "Message %1% contained %2% bad debug chunk%3%"
                 [get_string (envelope chunks) "id";
                  to_string (N.of_nat (num_invalid_debug chunks));
                  plural (num_invalid_debug chunks)]].
Proof.
  destruct (run t (wrapDebug chunks) w) as [out w'] eqn:Hrun.
  unfold wrapDebug in Hrun.
  run_all Hrun.
  all: injection Hrun as <- <-.
  all: rewrite foldl_snoc; cbn [app].
  all: eexists; (split; [reflexivity|]).
  all: (split; [reflexivity|]); (split; [reflexivity|]).
  all: repeat match goal with
         | E : negb _ = false |- _ =>
             apply negb_false_iff in E; rewrite ?E
         | E : negb _ = true |- _ => apply negb_true_iff in E; rewrite ?E
         end.
  all: show_events; try reflexivity.
  all: unfold events_since; by rewrite drop_all.
Qed.

(** ** More on the action task *)

Ltac open_task Hrun a :=
  unfold task, nonBlockingActionTask in Hrun;
  destruct a as [m act chunks job dir d];
  cbn [ta_module ta_action ta_chunks ta_job_id ta_results_dir ta_done] in *.

(** After a task whose action returned, the stdout file holds the
    output of an external action, or the serialized results of an
    internal one; the stderr file holds the error output of an external
    action that has some, and is empty otherwise. *)
Theorem outcome_stored_by_type a t w w' outcome :
  executeAction (ta_module a) (ta_action a) (ta_chunks a) = inr outcome ->
  run t (task a) w = (Returned tt, w') ->
  w_fs w' !! (ta_results_dir a +:+ "/stdout")
    = Some (File (match type outcome with
                  | External => stdout outcome
                  | Internal => toString (results outcome)
                  end +:+ nl))
  /\ w_fs w' !! (ta_results_dir a +:+ "/stderr")
     = Some (File (match type outcome with
                   | External =>
                       if empty (stderr outcome) then EmptyString
                       else stderr outcome +:+ nl
                   | Internal => EmptyString
                   end)).
Proof.
  intros Hex Hrun. open_task Hrun a.
  run_all Hrun.
  all: simplify_eq/=.
  all: repeat match goal with
         | E : type ?o = _ |- _ => rewrite E
         | E : negb _ = true |- _ => apply negb_true_iff in E; rewrite E
         | E : negb _ = false |- _ => apply negb_false_iff in E; rewrite E
         end.
  all: split; lookup_file.
Qed.

(** A task whose action returned sends the results to the requester
    exactly when the request asked for it with [notify_outcome], and
    then once. *)
Theorem outcome_notified_on_request a t w w' outcome :
  executeAction (ta_module a) (ta_action a) (ta_chunks a) = inr outcome ->
  run t (task a) w = (Returned tt, w') ->
  sends_of t (events_since w w')
  = if get_bool (data (ta_chunks a)) "notify_outcome"
    then [non_blocking_message (ta_chunks a) (ta_job_id a) outcome]
    else [].
Proof.
  intros Hex Hrun. open_task Hrun a.
  run_all Hrun.
  all: simplify_eq/=.
  all: show_events; show_sends; reflexivity.
Qed.

(** A task that throws never sets its flag. It throws only a
    [file_error], or what the action threw when that is not a
    [request_error]. *)
Theorem failed_task_never_sets_flag a t w e w' :
  run t (task a) w = (Threw e, w') ->
  w_flags w' = w_flags w
  /\ Forall (fun ev => forall t' f, ev <> EvStoreTrue t' f)
       (events_since w w')
  /\ (exn_cls e = file_error
      \/ executeAction (ta_module a) (ta_action a) (ta_chunks a) = inl e
         /\ exn_cls e <> request_error).
Proof.
  intros Hrun. open_task Hrun a.
  run_all Hrun.
  all: simplify_eq/=.
  all: split; [reflexivity|].
  all: split; [show_events;
               repeat (constructor; [intros; discriminate|]); constructor|].
  all: first [by left | by right].
Qed.

(** When every file can be opened and the action throws nothing but
    [request_error], the task returns and sets its flag, whether or not
    its messages can be sent. *)
Theorem task_completes_when_files_writable a t w :
  (forall n, env_open (w_env w) n = None) ->
  (forall e, executeAction (ta_module a) (ta_action a) (ta_chunks a) = inl e ->
             exn_cls e = request_error) ->
  exists w',
    run t (task a) w = (Returned tt, w')
    /\ w_flags w' = <[ta_done a := true]> (w_flags w).
Proof.
  intros Hopen Hreq.
  destruct (run t (task a) w) as [out w'] eqn:Hrun.
  open_task Hrun a.
  run_all Hrun.
  all: try match goal with
         | E : env_open _ ?n = Some _ |- _ =>
             rewrite (Hopen n) in E; discriminate E
         end.
  all: try match goal with
         | n : exn_cls ?e <> request_error |- _ =>
             exfalso; apply n, Hreq; first [reflexivity | assumption]
         end.
  all: simplify_eq.
  all: eexists; split; [reflexivity|].
  all: show_events; reflexivity.
Qed.

(** Whatever happens, a task writes only the three files of its job,
    sets only its own flag, sends only to the sender of the request,
    and starts no thread and creates no directory. *)
Theorem task_confined_to_its_job a t w out w' :
  run t (task a) w = (out, w') ->
  Forall (fun ev =>
            (forall t' text path r,
               ev = EvWrite t' text path r ->
               job_file (ta_results_dir a) path)
            /\ (forall t' f, ev = EvStoreTrue t' f -> f = ta_done a)
            /\ (forall t' msg r,
                  ev = EvSend t' msg r ->
                  msg_targets msg
                  = [get_string (envelope (ta_chunks a)) "sender"])
            /\ (forall t' args r, ev <> EvThreadAdd t' args r)
            /\ (forall t' d r, ev <> EvCreateDirectory t' d r))
    (events_since w w').
Proof.
  intros Hrun. open_task Hrun a.
  run_all Hrun.
  all: injection Hrun as <- <-.
  all: show_events.
  all: repeat (constructor;
               [split; [intros ? ? ? ? [=]; subst; unfold job_file; tauto|];
                split; [by intros ? ? [=]|];
                split; [by intros ? ? ? [=]; subst|];
                split; intros; discriminate|]);
       constructor.
Qed.

(** ** More on non-blocking requests *)


(** A failure to send the provisional response is a
    [connection_error], which [processNonBlockingRequest] logs as its last
    action before returning normally; a task it has started stays
    registered. *)
Theorem provisional_send_failure_tolerated
    spool m act chunks w out w' msg e :
  run MainThread (processNonBlockingRequest spool m act chunks) w
    = (out, w') ->
  EvSend MainThread msg (inl e) ∈ events_since w w' ->
  out = Returned tt
  /\ exn_cls e = connection_error
  /\ w_outbox w' = w_outbox w
  /\ last (events_since w w')
     = Some (EvLog MainThread ERROR
               "Failed to send provisional response for request %1% by %2%, transaction %3% (no further attempts): %4%"
               [get_string (envelope chunks) "id";
                get_string (envelope chunks) "sender";
                get_string (data chunks) "transaction_id"; what e])
  /\ (forall args,
        EvThreadAdd MainThread args (inr tt) ∈ events_since w w' ->
        w_threads w' = w_threads w ++ [args]).
Proof.
  intros Hrun Hin.
  unfold processNonBlockingRequest, wrapDebug in Hrun.
  run_all Hrun.
  all: injection Hrun as <- <-; revert Hin; show_events; intros Hin.
  all: elem_cases Hin.
  all: simplify_eq.
  all: split; [reflexivity|]. all: split; [reflexivity|].
  all: split; [reflexivity|]. all: split; [reflexivity|].
  all: intros args Hargs; elem_cases Hargs.
  all: by injection Hargs as ->.
Qed.

(** [processNonBlockingRequest] starts the task only after it has found
    the directory of the job or created it. *)
Theorem task_started_after_directory
    spool m act chunks w out w' pre args r post :
  run MainThread (processNonBlockingRequest spool m act chunks) w
    = (out, w') ->
  events_since w w' = pre ++ EvThreadAdd MainThread args r :: post ->
  ta_results_dir args = spool +:+ ta_job_id args
  /\ (EvExists MainThread (ta_results_dir args) true ∈ pre
      \/ EvCreateDirectory MainThread (ta_results_dir args) true ∈ pre)
  /\ Forall (fun ev => forall msg r', ev <> EvSend MainThread msg r') pre.
Proof.
  intros Hrun Hev.
  unfold processNonBlockingRequest, wrapDebug in Hrun.
  run_all Hrun.
  all: injection Hrun as <- <-; revert Hev; show_events; intros Hev.
  all: repeat (destruct pre as [|? pre]; simpl in Hev;
               [try discriminate Hev
               |first [discriminate Hev | injection Hev as <- Hev]]).
  all: try discriminate Hev.
  all: injection Hev as <- <- <-.
  all: cbn [ta_results_dir ta_job_id].
  all: (split; [reflexivity|]).
  all: repeat match goal with
         | E : negb _ = false |- _ =>
             apply negb_false_iff in E; rewrite ?E
         | E : negb _ = true |- _ => apply negb_true_iff in E; rewrite ?E
         end.
  all: (split;
         [first
            [ left;
              solve [repeat (apply elem_of_cons; first [by left | right])]
            | right;
              solve [repeat (apply elem_of_cons; first [by left | right])] ]
         |repeat (constructor; [intros; discriminate|]); constructor]).
Qed.

(** When [processNonBlockingRequest] returns it has tried to send one
    provisional response, and its [success] field tells whether the task
    was started. *)
Theorem success_tells_task_started spool m act chunks w w' :
  run MainThread (processNonBlockingRequest spool m act chunks) w
    = (Returned tt, w') ->
  exists payload,
    sends_of MainThread (events_since w w')
      = [provisional_message chunks payload]
    /\ (get_bool payload "success" = true <->
        length (w_threads w') = S (length (w_threads w)))
    /\ (get_bool payload "success" = false <-> w_threads w' = w_threads w).
Proof.
  intros Hrun.
  unfold processNonBlockingRequest, wrapDebug in Hrun.
  run_all Hrun.
  all: injection Hrun as <-.
  all: rewrite ?foldl_snoc; cbn [app].
  all: eexists; (split; [show_events; show_sends; reflexivity|]).
  all: cbn [w_threads record set_threads set_flags set_fs set_outbox].
  all: rewrite ?length_app; cbn [length].
  all: split; split; intros Hs; try done; try lia.
  all: try (apply (f_equal length) in Hs; rewrite length_app in Hs;
            simpl in Hs; lia).
Qed.

End Processor.

(** ** The theorems at work on the sample request *)

Import Sample.

Lemma done_flag_set_once_and_last_witness :
  let w' := (run (TaskThread 0) (@task externals (args echo)) fresh).2 in
  w_flags fresh !! 0%nat = Some false
  /\ run (TaskThread 0) (@task externals (args echo)) fresh
     = (Returned tt, w')
  /\ w_flags w' !! 0%nat = Some true.
Proof.
  intros w'. split; [reflexivity|]. split; [vm_compute; reflexivity|].
  destruct (@done_flag_set_once_and_last externals (args echo)
              (TaskThread 0) fresh w')
    as (pre & status & streams & _ & _ & _ & _ & _ & Hflag).
  - reflexivity.
  - vm_compute; reflexivity.
  - exact Hflag.
Defined.

Lemma final_status_completed_floor_duration_witness :
  let w' := (run (TaskThread 0) (@task externals (args echo)) fresh).2 in
  run (TaskThread 0) (@task externals (args echo)) fresh = (Returned tt, w')
  /\ exists status,
       w_fs w' !! "/spool/J1/status"
         = Some (File (@toString externals status +:+ nl))
       /\ get_string status "status" = "completed".
Proof.
  intros w'. split; [vm_compute; reflexivity|].
  destruct (@final_status_completed_floor_duration externals (args echo)
              (TaskThread 0) fresh w')
    as (pre & mid & post & t0 & t1 & r & status & secs
        & _ & Hst & _ & _ & _ & Hfs).
  - vm_compute; reflexivity.
  - exists status. split; [exact Hfs | exact Hst].
Defined.

Lemma nonempty_serialization_recorded_as_input_witness :
  let a := {| ta_module := echo; ta_action := "run";
              ta_chunks := chunks_empty_params; ta_job_id := "J1";
              ta_results_dir := "/spool/J1"; ta_done := 0 |} in
  let r := run (TaskThread 0) (@task json a) fresh in
  exists e status,
    events_since fresh r.2 !! 2%nat = Some e
    /\ (exists ok, e = EvWrite (TaskThread 0) (@toString json status +:+ nl)
                         "/spool/J1/status" ok)
    /\ get_string status "input" = "{}".
Proof.
  intros a r.
  destruct (events_since fresh r.2 !! 2%nat) as [e|] eqn:He;
    [|vm_compute in He; discriminate He].
  destruct (@nonempty_serialization_recorded_as_input json a (TaskThread 0)
              fresh r.1 r.2 e)
    as (status & ok & Hev & _ & Hin).
  { vm_compute. discriminate. }
  { apply surjective_pairing. }
  { exact He. }
  exists e, status. split; [reflexivity|]. split; [by exists ok|].
  exact Hin.
Defined.

(** C7 as stated fails: the params of the request are the empty object,
    and the input of the initial status is its serialization, the two
    braces, not ["none"]. *)
Lemma empty_params_input_is_not_none :
  let a := {| ta_module := echo; ta_action := "run";
              ta_chunks := chunks_empty_params; ta_job_id := "J1";
              ta_results_dir := "/spool/J1"; ta_done := 0 |} in
  let r := run (TaskThread 0) (@task json a) fresh in
  let status := [("module", DString "echo"); ("action", DString "run");
                 ("status", DString "running");
                 ("duration", DString "0 s"); ("input", DString "{}")] in
  get_data (data chunks_empty_params) "params" = []
  /\ events_since fresh r.2 !! 2%nat
     = Some (EvWrite (TaskThread 0) (@toString json status +:+ nl)
               "/spool/J1/status" (inr tt))
  /\ get_string status "input" = "{}"
  /\ get_string status "input" <> "none".
Proof.
  intros a r status.
  split; [reflexivity|]. split; [vm_compute; reflexivity|].
  split; [reflexivity|]. vm_compute. discriminate.
Qed.

Lemma empty_request_error_not_reported_witness :
  let w' := (run (TaskThread 0) (@task externals (args mute)) fresh).2 in
  executeAction mute "run" chunks = inl (Exn request_error EmptyString)
  /\ run (TaskThread 0) (@task externals (args mute)) fresh
     = (Returned tt, w')
  /\ w_fs w' !! "/spool/J1/stderr" = Some (File EmptyString).
Proof.
  intros w'. split; [reflexivity|]. split; [vm_compute; reflexivity|].
  destruct (@empty_request_error_not_reported externals (args mute)
              (TaskThread 0) fresh w') as (_ & Hfs & _).
  - reflexivity.
  - vm_compute; reflexivity.
  - exact Hfs.
Defined.

(** C5 as stated fails: the action throws a [request_error] with an
    empty message; the [rpc_error] is sent, yet the stderr file is left
    empty, where the failure message was due, and stdout receives the
    results of an action that never returned. *)
Lemma empty_request_error_leaves_stderr_empty :
  let r := run (TaskThread 0) (@task externals (args mute)) fresh in
  r.1 = Returned tt
  /\ sends_of (TaskThread 0) (events_since fresh r.2)
     = [rpc_error_message chunks EmptyString]
  /\ w_fs r.2 !! "/spool/J1/stderr" = Some (File EmptyString)
  /\ w_fs r.2 !! "/spool/J1/stderr"
     <> Some (File ("Failed to execute 'mute run': " +:+ nl))
  /\ w_fs r.2 !! "/spool/J1/stdout" = Some (File ("{}" +:+ nl)).
Proof.
  intros r. repeat split; try (vm_compute; reflexivity).
  vm_compute. discriminate.
Qed.



Lemma existing_spool_dir_is_reused_witness :
  let r := run MainThread request collision in
  is_Some (w_fs collision !! "/spool/J1")
  /\ r.1 = Returned tt
  /\ length (sends_of MainThread (events_since collision r.2)) = 1%nat.
Proof.
  intros r.
  assert (is_Some (w_fs collision !! ("/spool/" +:+ "J1"))) as Hsome
    by (vm_compute; by eexists).
  split; [exact Hsome|].
  destruct (@existing_spool_dir_is_reused externals "/spool/" echo "run"
              chunks collision r.1 r.2) as (_ & _ & Hfound & _).
  { apply surjective_pairing. }
  destruct (Hfound Hsome) as (Hout & _ & Hlen).
  split; [exact Hout | exact Hlen].
Defined.

(** C3 as stated fails: the directory of the drawn job id exists, and
    the processor neither draws again nor fails; two requests served with
    the same draw answer with the same job id. *)
Lemma collision_is_not_retried :
  let r := run MainThread request collision in
  let twice := run MainThread (request;; request) collision in
  is_Some (w_fs collision !! "/spool/J1")
  /\ r.1 = Returned tt
  /\ drawn_uuids (events_since collision r.2) = ["J1"]
  /\ sends_of MainThread (events_since collision r.2)
     = [provisional_message chunks
          [("transaction_id", DString "t1"); ("success", DBool true);
           ("job_id", DString "J1")]]
  /\ twice.1 = Returned tt
  /\ map (fun m => get_string (msg_data m) "job_id")
       (sends_of MainThread (events_since collision twice.2))
     = ["J1"; "J1"].
Proof.
  intros r twice. split; [vm_compute; by eexists|].
  repeat split; vm_compute; reflexivity.
Qed.

Lemma spawn_failure_replied_mkdir_failure_thrown_witness :
  let r1 := run MainThread request spawn_fails in
  let r2 := run MainThread request mkdir_fails in
  (exists a e, EvThreadAdd MainThread a (inl e) ∈ events_since spawn_fails r1.2)
  /\ EvCreateDirectory MainThread "/spool/J1" false
     ∈ events_since mkdir_fails r2.2
  /\ r1.1 = Returned tt
  /\ length (sends_of MainThread (events_since spawn_fails r1.2)) = 1%nat
  /\ sends_of MainThread (events_since mkdir_fails r2.2) = [].
Proof.
  intros r1 r2.
  assert (EvThreadAdd MainThread
            {| ta_module := echo; ta_action := "run"; ta_chunks := chunks;
               ta_job_id := "J1"; ta_results_dir := "/spool/J1";
               ta_done := 1 |}
            (inl (Exn std_exception "Resource temporarily unavailable"))
          ∈ events_since spawn_fails r1.2) as H1.
  { vm_compute. repeat (apply elem_of_cons; first [by left | right]). }
  assert (EvCreateDirectory MainThread "/spool/J1" false
          ∈ events_since mkdir_fails r2.2) as H2.
  { vm_compute. repeat (apply elem_of_cons; first [by left | right]). }
  split; [by eexists _, _|]. split; [exact H2|].
  destruct (@spawn_failure_replied_mkdir_failure_thrown externals "/spool/"
              echo "run" chunks spawn_fails r1.1 r1.2) as [Hspawn _].
  { apply surjective_pairing. }
  destruct (@spawn_failure_replied_mkdir_failure_thrown externals "/spool/"
              echo "run" chunks mkdir_fails r2.1 r2.2) as [_ Hmkdir].
  { apply surjective_pairing. }
  destruct (Hspawn _ _ H1) as (Hout & payload & Hsends & _).
  destruct (Hmkdir _ H2) as (_ & Hnone).
  split; [exact Hout|]. split; [by rewrite Hsends | exact Hnone].
Defined.

(** C4 as stated fails: the directory cannot be created, the processor
    throws, and no provisional reply is sent. *)
Lemma mkdir_failure_sends_no_reply :
  let r := run MainThread request mkdir_fails in
  r.1 = Threw (Exn request_processing_error
                 "failed to create directory '/spool/J1'")
  /\ sends_of MainThread (events_since mkdir_fails r.2) = []
  /\ w_outbox r.2 = [].
Proof. intros r. repeat split; vm_compute; reflexivity. Qed.

(** ** More sample runs *)

Lemma request_error_reported_witness :
  let w' := (run (TaskThread 0) (@task externals (args pkg)) fresh).2 in
  executeAction pkg "run" chunks = inl (Exn request_error "E: no space")
  /\ sends_of (TaskThread 0) (events_since fresh w')
     = [rpc_error_message chunks "E: no space"]
  /\ w_fs w' !! "/spool/J1/stderr"
     = Some (File ("Failed to execute 'pkg run': E: no space" +:+ nl)).
Proof.
  intros w'. split; [reflexivity|].
  apply (@request_error_reported externals (args pkg) (TaskThread 0) fresh w'
           "E: no space").
  - reflexivity.
  - discriminate.
  - vm_compute; reflexivity.
Defined.

Lemma outcome_stored_by_type_witness :
  let w' := (run (TaskThread 0) (@task externals (args echo)) fresh).2 in
  w_fs w' !! "/spool/J1/stdout" = Some (File ("{outcome=hi;}" +:+ nl))
  /\ w_fs w' !! "/spool/J1/stderr" = Some (File EmptyString).
Proof.
  intros w'.
  apply (@outcome_stored_by_type externals (args echo) (TaskThread 0) fresh w'
           {| type := Internal; stderr := EmptyString;
              stdout := EmptyString;
              results := [("outcome", DString "hi")] |}).
  - reflexivity.
  - vm_compute; reflexivity.
Defined.

Lemma outcome_notified_on_request_witness :
  let w' := (run (TaskThread 0) (@task externals (args echo)) fresh).2 in
  sends_of (TaskThread 0) (events_since fresh w')
  = [non_blocking_message chunks "J1"
       {| type := Internal; stderr := EmptyString; stdout := EmptyString;
          results := [("outcome", DString "hi")] |}].
Proof.
  intros w'.
  apply (@outcome_notified_on_request externals (args echo) (TaskThread 0)
           fresh w').
  - reflexivity.
  - vm_compute; reflexivity.
Defined.

Lemma failed_task_never_sets_flag_witness :
  let r := run (TaskThread 0) (@task externals (args echo)) read_only in
  r.1 = Threw (Exn file_error "Permission denied")
  /\ w_flags r.2 = [false].
Proof.
  intros r. split; [vm_compute; reflexivity|].
  destruct (@failed_task_never_sets_flag externals (args echo) (TaskThread 0)
              read_only (Exn file_error "Permission denied") r.2)
    as (Hflags & _).
  - vm_compute; reflexivity.
  - exact Hflags.
Defined.

Lemma task_completes_when_files_writable_witness :
  exists w',
    run (TaskThread 0) (@task externals (args pkg)) send_fails
    = (Returned tt, w')
    /\ w_flags w' = [true]
    /\ w_outbox w' = [].
Proof.
  destruct (@task_completes_when_files_writable externals (args pkg)
              (TaskThread 0) send_fails) as (w' & Hrun & Hflags).
  - reflexivity.
  - intros e [= <-]. reflexivity.
  - exists w'. split; [exact Hrun|]. split; [exact Hflags|].
    assert (w' = (run (TaskThread 0) (@task externals (args pkg))
                    send_fails).2) as -> by (by rewrite Hrun).
    vm_compute; reflexivity.
Defined.

Lemma task_confined_to_its_job_witness :
  let w' := (run (TaskThread 0) (@task externals (args echo)) fresh).2 in
  Forall (fun ev => forall t' text path r,
            ev = EvWrite t' text path r -> job_file "/spool/J1" path)
    (events_since fresh w').
Proof.
  intros w'.
  eapply Forall_impl.
  - apply (@task_confined_to_its_job externals (args echo) (TaskThread 0)
             fresh (Returned tt) w').
    vm_compute; reflexivity.
  - intros ev (Hwrite & _). exact Hwrite.
Defined.


Lemma blocking_request_error_propagates_witness :
  exists w',
    run MainThread (@processBlockingRequest externals pkg "run" chunks) fresh
    = (Threw (Exn request_error "E: no space"), w')
    /\ w_outbox w' = [].
Proof.
  destruct (@blocking_request_error_propagates externals pkg "run" chunks
              fresh (Exn request_error "E: no space"))
    as (w' & Hrun & _ & Hout).
  - reflexivity.
  - exists w'. split; [exact Hrun | exact Hout].
Defined.

Lemma blocking_response_sent_once_witness :
  let r :=
    run MainThread (@processBlockingRequest externals echo "run" chunks)
      fresh in
  r.1 = Returned tt
  /\ sends_of MainThread (events_since fresh r.2)
     = [blocking_message chunks
          {| type := Internal; stderr := EmptyString; stdout := EmptyString;
             results := [("outcome", DString "hi")] |}].
Proof.
  intros r.
  destruct (@blocking_response_sent_once externals echo "run" chunks fresh
              r.1 r.2
              {| type := Internal; stderr := EmptyString;
                 stdout := EmptyString;
                 results := [("outcome", DString "hi")] |})
    as (Hout & Hsends & _).
  - reflexivity.
  - apply surjective_pairing.
  - split; [exact Hout | exact Hsends].
Defined.


Lemma provisional_send_failure_tolerated_witness :
  let r := run MainThread request send_fails in
  r.1 = Returned tt /\ w_outbox r.2 = [] /\ length (w_threads r.2) = 1%nat.
Proof.
  intros r.
  destruct (@provisional_send_failure_tolerated externals "/spool/" echo
              "run" chunks send_fails r.1 r.2
              (provisional_message chunks
                 [("transaction_id", DString "t1"); ("success", DBool true);
                  ("job_id", DString "J1")])
              (Exn connection_error "connection closed"))
    as (Hout & _ & Hbox & _ & Hthreads).
  - apply surjective_pairing.
  - vm_compute. repeat (apply elem_of_cons; first [by left | right]).
  - split; [exact Hout|]. split; [exact Hbox|].
    rewrite (Hthreads {| ta_module := echo; ta_action := "run";
                         ta_chunks := chunks; ta_job_id := "J1";
                         ta_results_dir := "/spool/J1"; ta_done := 1 |}).
    + reflexivity.
    + vm_compute. repeat (apply elem_of_cons; first [by left | right]).
Defined.

Lemma wrapDebug_copies_and_warns_witness :
  exists w',
    run MainThread (@wrapDebug externals chunks_bad_debug) fresh
    = (Returned [[("hop", DString "server")]], w')
    /\ events_since fresh w'
       = [EvLog MainThread WARNING
            "Message %1% contained %2% bad debug chunk%3%"
            ["req-1"; "1"; EmptyString]].
Proof.
  destruct (@wrapDebug_copies_and_warns externals MainThread chunks_bad_debug
              fresh) as (w' & Hrun & _ & _ & Hevs).
  exists w'. split; [exact Hrun | exact Hevs].
Defined.

Lemma task_started_after_directory_witness :
  let r := run MainThread request fresh in
  exists pre args post,
    events_since fresh r.2 = pre ++ EvThreadAdd MainThread args (inr tt) :: post
    /\ ta_results_dir args = "/spool/J1"
    /\ EvCreateDirectory MainThread "/spool/J1" true ∈ pre.
Proof.
  intros r.
  set (args := {| ta_module := echo; ta_action := "run";
                  ta_chunks := chunks; ta_job_id := "J1";
                  ta_results_dir := "/spool/J1"; ta_done := 1 |}).
  set (pre := take 6 (events_since fresh r.2)).
  set (post := drop 7 (events_since fresh r.2)).
  assert (events_since fresh r.2
          = pre ++ EvThreadAdd MainThread args (inr tt) :: post) as Hev
    by (vm_compute; reflexivity).
  exists pre, args, post. split; [exact Hev|].
  destruct (@task_started_after_directory externals "/spool/" echo "run"
              chunks fresh r.1 r.2 pre args (inr tt) post)
    as (Hdir & [Hfound|Hcreated] & _).
  - apply surjective_pairing.
  - exact Hev.
  - exfalso. vm_compute in Hfound. elem_cases Hfound.
  - split; [reflexivity | exact Hcreated].
Defined.

Lemma success_tells_task_started_witness :
  exists payload,
    sends_of MainThread
      (events_since spawn_fails (run MainThread request spawn_fails).2)
    = [provisional_message chunks payload]
    /\ get_bool payload "success" = false.
Proof.
  destruct (@success_tells_task_started externals "/spool/" echo "run" chunks
              spawn_fails (run MainThread request spawn_fails).2)
    as (payload & Hsends & _ & Hfalse).
  - vm_compute; reflexivity.
  - exists payload. split; [exact Hsends|].
    apply Hfalse. vm_compute; reflexivity.
Defined.

End RequestProcessorFacts.

(** * Facts about src/agent/agent_endpoint.cpp *)

Module AgentEndpointFacts.
Import AgentEndpoint.

(** ** Running programs *)

Lemma endpoint_run_bind {A B} (p : M A) (f : A -> M B) w :
  run (p ≫= f) w =
  match run p w with
  | (Returned a, w') => run (f a) w'
  | (Threw e, w') => (Threw e, w')
  end.
Proof.
  revert w. induction p as [a|e|o k IH]; intros w; try reflexivity.
  change (Vis o k ≫= f) with (Vis o (fun r => k r ≫= f)). simpl.
  destruct (handle o w) as [r w']. apply IH.
Qed.

Lemma endpoint_run_try_catch {A} (p : M A) h w :
  run (try_catch p h) w =
  match run p w with
  | (Returned a, w') => (Returned a, w')
  | (Threw e, w') =>
      match h e with Some q => run q w' | None => (Threw e, w') end
  end.
Proof.
  revert w. induction p as [a|e|o k IH]; intros w; simpl.
  - reflexivity.
  - destruct (h e); reflexivity.
  - destruct (handle o w) as [r w']. apply IH.
Qed.

Section RunEquations.
Context `{!Externals}.

Lemma endpoint_run_ret {A} (a : A) w : run (mret a) w = (Returned a, w).
Proof. reflexivity. Qed.

Lemma endpoint_run_throw {A} e w : run (Throw e : M A) w = (Threw e, w).
Proof. reflexivity. Qed.

Lemma run_lift {A} (r : exn + A) w :
  run (lift r) w =
  match r with inl e => (Threw e, w) | inr a => (Returned a, w) end.
Proof. by destruct r. Qed.

Lemma endpoint_run_log lvl fmt args w :
  run (log lvl fmt args) w = (Returned tt, record (EvLog lvl fmt args) w).
Proof. reflexivity. Qed.

Lemma run_call_action name m action input w :
  run (call_action name m action input) w =
  match validate_and_call_action m action input with
  | inl e => (Threw e, record (EvCall name action input (inl e)) w)
  | inr o => (Returned o, record (EvCall name action input (inr o)) w)
  end.
Proof.
  unfold call_action, call. simpl. unfold handle. simpl.
  by destruct (validate_and_call_action _ _ _).
Qed.

Lemma run_getConnectionHandle w :
  run getConnectionHandle w = (Returned tt, record EvHandle w).
Proof. reflexivity. Qed.

Lemma run_client_send payload w :
  run (client_send payload) w =
  match env_send (w_env w) (w_step w) with
  | Some e => (Threw e, record (EvSend payload (inl e)) w)
  | None => (Returned tt, record (EvSend payload (inr tt)) (deliver payload w))
  end.
Proof.
  unfold client_send, call. simpl. unfold handle. simpl.
  by destruct (env_send _ _).
Qed.

Lemma run_getState w :
  run getState w =
  (Returned (env_state (w_env w) (w_step w)),
   record (EvState (env_state (w_env w) (w_step w))) w).
Proof. reflexivity. Qed.

Lemma run_configureSecureEndpoint ca crt key w :
  run (configureSecureEndpoint ca crt key) w =
  match env_configure (w_env w) (w_step w) with
  | Some msg =>
      (Threw (Exn endpoint_error msg),
       record (EvConfigure ca crt key (inl (Exn endpoint_error msg))) w)
  | None => (Returned tt, record (EvConfigure ca crt key (inr tt)) w)
  end.
Proof.
  unfold configureSecureEndpoint, call. simpl. unfold handle. simpl.
  by destruct (env_configure _ _).
Qed.

Lemma run_createConnection url w :
  run (createConnection url) w = (Returned tt, record (EvCreateConnection url) w).
Proof. reflexivity. Qed.

Lemma run_setConnectionCallbacks w :
  run setConnectionCallbacks w = (Returned tt, record EvSetCallbacks w).
Proof. reflexivity. Qed.

Lemma run_open w :
  run open_ w =
  match env_open (w_env w) (w_step w) with
  | Some msg =>
      (Threw (Exn connection_error msg),
       record (EvOpen (inl (Exn connection_error msg))) w)
  | None => (Returned tt, record (EvOpen (inr tt)) w)
  end.
Proof.
  unfold open_, call. simpl. unfold handle. simpl.
  by destruct (env_open _ _).
Qed.

Lemma run_waitForOpen w :
  run waitForOpen w =
  match env_wait (w_env w) (w_step w) with
  | Some msg =>
      (Threw (Exn connection_error msg),
       record (EvWaitForOpen (inl (Exn connection_error msg))) w)
  | None => (Returned tt, record (EvWaitForOpen (inr tt)) w)
  end.
Proof.
  unfold waitForOpen, call. simpl. unfold handle. simpl.
  by destruct (env_wait _ _).
Qed.

Lemma run_sleep n w :
  run (sleep_ n) w = (Returned tt, record (EvSleep n) w).
Proof. reflexivity. Qed.

Lemma run_HeartbeatTask_start w :
  run HeartbeatTask_start_ w =
  (Returned tt,
   record EvHeartbeatStart
     (record (EvLog INFO "starting the heartbeat task" []) w)).
Proof. reflexivity. Qed.

Lemma run_HeartbeatTask_stop w :
  run HeartbeatTask_stop_ w =
  (Returned tt,
   record EvHeartbeatStop
     (record (EvLog INFO "stopping the heartbeat task" []) w)).
Proof. reflexivity. Qed.

Lemma run_log_each errors w :
  run (log_each errors) w =
  (Returned tt,
   foldl (fun w error => record (EvLog ERROR "    %1%" [error]) w) w errors).
Proof.
  revert w. induction errors as [|e errors IH]; intros w; [done|].
  unfold log_each. simpl. apply IH.
Qed.

Lemma log_each_trace errors w :
  w_trace (foldl (fun w error => record (EvLog ERROR "    %1%" [error]) w)
             w errors)
  = w_trace w ++ map (fun error => EvLog ERROR "    %1%" [error]) errors.
Proof.
  revert w. induction errors as [|e errors IH]; intros w; simpl.
  - by rewrite app_nil_r.
  - rewrite IH. simpl. by rewrite <- app_assoc.
Qed.

Lemma log_each_sent errors w :
  w_sent (foldl (fun w error => record (EvLog ERROR "    %1%" [error]) w)
            w errors)
  = w_sent w.
Proof.
  revert w. induction errors as [|e errors IH]; intros w; simpl; [done|].
  by rewrite IH.
Qed.

Lemma run_ping payload w :
  run (ping payload) w =
  match env_ping (w_env w) (w_step w) with
  | Some e => (Threw e, record (EvPing payload (inl e)) w)
  | None => (Returned tt, record (EvPing payload (inr tt)) w)
  end.
Proof.
  unfold ping, call. simpl. unfold handle. simpl.
  by destruct (env_ping _ _).
Qed.

Lemma run_must_stop w :
  run must_stop_ w =
  (Returned (env_must_stop (w_env w) (w_step w)),
   record (EvMustStop (env_must_stop (w_env w) (w_step w))) w).
Proof. reflexivity. Qed.

Lemma run_warn_each errors w :
  run (warn_each errors) w =
  (Returned tt,
   foldl (fun w error => record (EvLog WARNING "    %1%" [error]) w)
     w errors).
Proof.
  revert w. induction errors as [|e errors IH]; intros w; [done|].
  unfold warn_each. simpl. apply IH.
Qed.

Lemma warn_each_trace errors w :
  w_trace (foldl (fun w error => record (EvLog WARNING "    %1%" [error]) w)
             w errors)
  = w_trace w ++ map (fun error => EvLog WARNING "    %1%" [error]) errors.
Proof.
  revert w. induction errors as [|e errors IH]; intros w; simpl.
  - by rewrite app_nil_r.
  - rewrite IH. simpl. by rewrite <- app_assoc.
Qed.

Lemma warn_each_sent errors w :
  w_sent (foldl (fun w error => record (EvLog WARNING "    %1%" [error]) w)
            w errors)
  = w_sent w.
Proof.
  revert w. induction errors as [|e errors IH]; intros w; simpl; [done|].
  by rewrite IH.
Qed.

End RunEquations.

(** ** Symbolic execution, at the head of a run only *)

Ltac world_simpl H :=
  cbn [w_env w_step w_sent w_trace record deliver exn_cls what] in H.

Ltac split_on_world H :=
  lazymatch type of H with
  | context [match ?f (w_env ?w) ?n with _ => _ end] =>
      destruct (f (w_env w) n) eqn:?
  end.

Ltac run_head H :=
  lazymatch type of H with
  | context [run (mbind ?f ?p) ?w] => rewrite (endpoint_run_bind p f w) in H
  | context [run (try_catch ?p ?h) ?w] => rewrite (endpoint_run_try_catch p h w) in H
  | context [run (mret ?a) ?w] => rewrite (endpoint_run_ret a w) in H
  | context [run (Throw ?e) ?w] => rewrite (endpoint_run_throw e w) in H
  | context [run (lift ?r) ?w] =>
      rewrite (run_lift r w) in H; destruct r eqn:?
  | context [run (log ?l ?f ?a) ?w] => rewrite (endpoint_run_log l f a w) in H
  | context [run (log_each ?l) ?w] => rewrite (run_log_each l w) in H
  | context [run (warn_each ?l) ?w] => rewrite (run_warn_each l w) in H
  | context [run (ping ?p) ?w] =>
      rewrite (run_ping p w) in H; world_simpl H; split_on_world H
  | context [run must_stop_ ?w] =>
      rewrite (run_must_stop w) in H; world_simpl H
  | context [run (call_action ?n ?m ?a ?i) ?w] =>
      rewrite (run_call_action n m a i w) in H;
      destruct (validate_and_call_action m a i) eqn:?
  | context [run getConnectionHandle ?w] =>
      rewrite (run_getConnectionHandle w) in H
  | context [run (client_send ?p) ?w] =>
      rewrite (run_client_send p w) in H; world_simpl H; split_on_world H
  | context [run getState ?w] =>
      rewrite (run_getState w) in H; world_simpl H
  | context [run (configureSecureEndpoint ?a ?b ?c) ?w] =>
      rewrite (run_configureSecureEndpoint a b c w) in H; world_simpl H;
      split_on_world H
  | context [run (createConnection ?u) ?w] =>
      rewrite (run_createConnection u w) in H
  | context [run setConnectionCallbacks ?w] =>
      rewrite (run_setConnectionCallbacks w) in H
  | context [run open_ ?w] =>
      rewrite (run_open w) in H; world_simpl H; split_on_world H
  | context [run waitForOpen ?w] =>
      rewrite (run_waitForOpen w) in H; world_simpl H; split_on_world H
  | context [run (sleep_ ?n) ?w] => rewrite (run_sleep n w) in H
  | context [run HeartbeatTask_start_ ?w] =>
      rewrite (run_HeartbeatTask_start w) in H
  | context [run HeartbeatTask_stop_ ?w] =>
      rewrite (run_HeartbeatTask_stop w) in H
  | context [run (if ?b then _ else _) ?w] => destruct b eqn:?
  | context [run (match ?x with _ => _ end) ?w] => destruct x eqn:?
  | context [match catch ?c ?h (Exn ?c ?msg) with _ => _ end] =>
      rewrite (catch_same c h msg) in H
  | context [match catch ?c ?h ?e with _ => _ end] =>
      unfold catch at 1 in H;
      destruct (decide (exn_cls e = c)) as [?|?]
  | context [match or_catch ?h1 ?h2 ?e with _ => _ end] =>
      unfold or_catch at 1 in H
  | context [match catch_std_exception ?h ?e with _ => _ end] =>
      unfold catch_std_exception at 1 in H;
      destruct (decide (exn_cls e = non_std_exception)) as [?|?]
  | context [match catch_all ?h ?e with _ => _ end] =>
      unfold catch_all at 1 in H
  end;
  cbv beta iota in H.

Ltac run_all H := repeat (run_head H; try discriminate H).

Ltac show_events :=
  unfold events_since;
  rewrite ?log_each_trace, ?log_each_sent,
    ?warn_each_trace, ?warn_each_sent;
  cbn [w_trace w_sent w_step w_env record deliver];
  rewrite <- ?app_assoc; cbn [app];
  rewrite ?drop_app_length.

Ltac elem_cases H :=
  repeat (apply elem_of_cons in H as [H|H]; [try discriminate H|]);
  try (apply elem_of_nil in H; destruct H).

(** A trace of log entries has no call and no send. *)
Lemma logs_only evs :
  Forall is_log evs -> calls_of evs = [] /\ sends_of evs = [].
Proof.
  induction 1 as [|e evs He _ [IH1 IH2]]; [done|].
  destruct e; try done.
Qed.

(** Use the answers of the validator and of the conversions recorded so
    far. *)
Ltac use_answers :=
  repeat match goal with
         | E : negb _ = false |- _ => apply negb_false_iff in E
         | E : negb _ = true |- _ => apply negb_true_iff in E
         | E : (_ =? _) = true |- _ => apply String.eqb_eq in E
         | E : (_ =? _) = false |- _ => apply String.eqb_neq in E
         end;
  repeat match goal with
         | E : validate ?d ?s ?l = _, X : context [validate ?d ?s ?l] |- _ =>
             lazymatch X with
             | E => fail
             | _ => rewrite E in X; cbn [fst snd] in X
             end
         | E : asString ?j = _, X : context [asString ?j] |- _ =>
             lazymatch X with E => fail | _ => rewrite E in X end
         | E : reader_parse ?j = _, X : context [reader_parse ?j] |- _ =>
             lazymatch X with E => fail | _ => rewrite E in X end
         end.

Section Dispatch.
Context `{!Externals}.

(** C8: a message that is not JSON, whose envelope is not valid, whose
    [data_schema] is not the cnc one, or whose data are not valid, is
    dropped: [handle_message] returns, it only logs, at least once as an
    error, it calls no module and sends nothing. *)
Theorem invalid_message_dropped modules_ message w out w' :
  run (handle_message modules_ message) w = (out, w') ->
  fails_validation message ->
  out = Returned tt
  /\ Forall is_log (events_since w w')
  /\ Exists is_error_log (events_since w w')
  /\ calls_of (events_since w w') = []
  /\ sends_of (events_since w w') = []
  /\ w_sent w' = w_sent w.
Proof.
  intros Hrun Hinv. unfold handle_message in Hrun.
  run_all Hrun.
  all: injection Hrun as <- <-.
  all: first
    [ (* the message passed the checks: it does not fail validation *)
      exfalso;
      destruct Hinv as [Hp|(doc & Hp & [Hv|(Hv & ds & Hs & [Hne|Hd])])];
      use_answers; simplify_eq; use_answers;
      congruence
    | (* it was dropped at one of the checks *)
      lazymatch goal with
      | |- _ /\ Forall is_log ?evs /\ _ =>
          assert (Forall is_log evs) as Hlogs
            by (show_events;
                repeat (constructor; [exact I|]);
                first [constructor | apply Forall_map, Forall_true; done]);
          destruct (logs_only _ Hlogs) as [Hcalls Hsends]
      end;
      split; [reflexivity|]; split; [exact Hlogs|];
      split; [|split; [exact Hcalls|split; [exact Hsends|]]];
      [ show_events;
        repeat first [ by (apply Exists_cons_hd)
                     | apply Exists_cons_tl ]
      | rewrite ?log_each_sent; reflexivity ] ].
Qed.
End Dispatch.

Section UnknownModule.
Context `{!Externals}.

(** C9: for a valid cnc request that names a module absent from the
    registry, [handle_message] calls no module and tries to send exactly
    one frame: the response whose [data.response.error] is
    ["Unknown module: '<module_name>'"]. The frame is delivered when the
    send succeeds. *)
Theorem unknown_module_answered
    modules_ message doc module_name action_name w out w' :
  run (handle_message modules_ message) w = (out, w') ->
  cnc_request message doc module_name action_name ->
  modules_ !! module_name = None ->
  let error := JString ("Unknown module: '" +:+ module_name +:+ "'") in
  let response := response_of doc (json_set "error" error JNull) in
  out = Returned tt
  /\ calls_of (events_since w w') = []
  /\ sends_of (events_since w w') = [toStyledString response]
  /\ json_get (json_get (json_get response "data") "response") "error"
     = error
  /\ (env_send (w_env w) (5 + w_step w) = None ->
      w_sent w' = w_sent w ++ [toStyledString response]).
Proof.
  intros Hrun (Hp & Hv & Hs & Hd & Hm & Ha) Hnone.
  unfold handle_message in Hrun.
  run_all Hrun.
  all: injection Hrun as <- <-.
  all: do 3 (use_answers; simplify_eq); try congruence.
  all: intros error response.
  all: split; [reflexivity|].
  all: split; [show_events; reflexivity|].
  all: split; [show_events; reflexivity|].
  all: split; [reflexivity|].
  all: cbn [Nat.add]; intros Hsend; first [congruence | reflexivity].
Qed.

End UnknownModule.

Section Monitoring.
Context `{!Externals}.

Lemma reconnection_failed_app pre trace :
  reconnection_failed trace -> reconnection_failed (pre ++ trace).
Proof.
  intros (pre' & msg & r & -> & Hr).
  exists (pre ++ pre'), msg, r. by rewrite app_assoc.
Qed.

Lemma reconnection_failed_cons e trace :
  reconnection_failed trace -> reconnection_failed (e :: trace).
Proof. apply (reconnection_failed_app [e]). Qed.

Lemma monitor_round_env w out w' :
  run monitor_round w = (out, w') -> w_env w' = w_env w.
Proof.
  intros Hrun. unfold monitor_round in Hrun.
  run_all Hrun.
  all: by injection Hrun as <- <-.
Qed.

Lemma monitor_round_throws w e w' :
  run monitor_round w = (Threw e, w') ->
  e = Exn fatal_error "failed to reconnect"
  /\ reconnection_failed (w_trace w').
Proof.
  intros Hrun. unfold monitor_round in Hrun.
  run_all Hrun.
  all: injection Hrun as <- <-.
  all: split; [reflexivity|].
  all: cbn [w_trace record what].
  all: rewrite <- ?app_assoc; cbn [app]; apply reconnection_failed_app.
  all: repeat first
         [ by (exists [], s; eexists; split;
               [reflexivity | first [by left | by right]])
         | apply reconnection_failed_cons ].
Qed.

Lemma monitor_finished fuel w o w' :
  monitorConnectionState fuel w = (Finished o, w') ->
  o = Threw (Exn fatal_error "failed to reconnect")
  /\ reconnection_failed (w_trace w').
Proof.
  unfold monitorConnectionState.
  revert w. induction fuel as [|fuel IH]; intros w Hrun; [done|].
  cbn [forever] in Hrun.
  destruct (run monitor_round w) as [[[]|e] w1] eqn:Hround.
  - by apply (IH w1).
  - injection Hrun as <- <-.
    by destruct (monitor_round_throws _ _ _ Hround) as [-> ?].
Qed.

Lemma monitor_keeps_running fuel w :
  (forall n, env_open (w_env w) n = None /\ env_wait (w_env w) n = None) ->
  (monitorConnectionState fuel w).1 = Running.
Proof.
  unfold monitorConnectionState.
  revert w. induction fuel as [|fuel IH]; intros w Hnet; [done|].
  cbn [forever].
  destruct (run monitor_round w) as [[[]|e] w1] eqn:Hround.
  - apply IH. by rewrite (monitor_round_env _ _ _ Hround).
  - exfalso.
    destruct (monitor_round_throws _ _ _ Hround) as [_ Hfail].
    clear IH. unfold monitor_round in Hround.
    run_all Hround.
    all: repeat match goal with
           | E : env_open _ ?n = Some _ |- _ =>
               rewrite (proj1 (Hnet n)) in E; discriminate E
           | E : env_wait _ ?n = Some _ |- _ =>
               rewrite (proj2 (Hnet n)) in E; discriminate E
           end.
Qed.

Lemma monitor_reconnect_fails fuel w msg :
  env_state (w_env w) (w_step w) <> open ->
  env_open (w_env w) (3 + w_step w) = Some msg ->
  (monitorConnectionState (S fuel) w).1
  = Finished (Threw (Exn fatal_error "failed to reconnect")).
Proof.
  intros Hst Hopen. unfold monitorConnectionState. cbn [forever Nat.add] in *.
  destruct (run monitor_round w) as [out w1] eqn:Hround.
  unfold monitor_round in Hround.
  run_all Hround.
  all: try (injection Hround as <- <-; reflexivity).
  all: try congruence.
  all: match goal with
       | E : negb _ = false |- _ =>
           apply negb_false_iff, bool_decide_eq_true in E; contradiction
       end.
Qed.

Lemma connect_env url ca crt key w out w' :
  run (connect url ca crt key) w = (out, w') -> w_env w' = w_env w.
Proof.
  intros Hrun. unfold connect in Hrun.
  run_all Hrun.
  all: by injection Hrun as <- <-.
Qed.

Lemma connect_throws url ca crt key w e w' :
  run (connect url ca crt key) w = (Threw e, w') ->
  exn_cls e = fatal_error.
Proof.
  intros Hrun. unfold connect in Hrun.
  run_all Hrun.
  all: by injection Hrun as <- <-.
Qed.

Lemma connect_returns url ca crt key w :
  (forall n, env_configure (w_env w) n = None
             /\ env_open (w_env w) n = None
             /\ env_wait (w_env w) n = None) ->
  exists w', run (connect url ca crt key) w = (Returned tt, w').
Proof.
  intros Hnet.
  destruct (run (connect url ca crt key) w) as [out w'] eqn:Hrun.
  exists w'. f_equal.
  unfold connect in Hrun.
  run_all Hrun.
  all: try (by injection Hrun as <- <-).
  all: repeat match goal with
         | E : _ _ ?n = Some _ |- _ =>
             first [ rewrite (proj1 (Hnet n)) in E
                   | rewrite (proj1 (proj2 (Hnet n))) in E
                   | rewrite (proj2 (proj2 (Hnet n))) in E ];
             discriminate E
         end.
Qed.

(** C10: after any number of rounds, [monitorConnectionState] is either
    still running or has thrown [fatal_error "failed to reconnect"] right
    after a reconnection attempt failed; [connect_and_run] is either
    still running or has thrown a [fatal_error]. A connection found not
    open that cannot be reopened makes the first round throw; and when
    configuring, opening and waiting always succeed, both are still
    running after any number of rounds. *)
Theorem monitorConnectionState_never_returns url ca crt key fuel w :
  (forall o w',
     monitorConnectionState fuel w = (Finished o, w') ->
     o = Threw (Exn fatal_error "failed to reconnect")
     /\ reconnection_failed (w_trace w'))
  /\ (forall o w',
        connect_and_run url ca crt key fuel w = (Finished o, w') ->
        exists e, o = Threw e /\ exn_cls e = fatal_error)
  /\ (forall msg,
        env_state (w_env w) (w_step w) <> open ->
        env_open (w_env w) (3 + w_step w) = Some msg ->
        (monitorConnectionState (S fuel) w).1
        = Finished (Threw (Exn fatal_error "failed to reconnect")))
  /\ ((forall n, env_configure (w_env w) n = None
                 /\ env_open (w_env w) n = None
                 /\ env_wait (w_env w) n = None) ->
      (monitorConnectionState fuel w).1 = Running
      /\ (connect_and_run url ca crt key fuel w).1 = Running).
Proof.
  split; [apply monitor_finished|].
  split.
  { intros o w'. unfold connect_and_run.
    destruct (run (connect url ca crt key) w) as [[[]|e] w1] eqn:Hconnect.
    - destruct (monitorConnectionState fuel w1) as [[|o1] w2] eqn:Hmonitor;
        [done|].
      intros [= <- <-].
      destruct (monitor_finished _ _ _ _ Hmonitor) as [-> _]. by eexists.
    - intros [= <- <-]. exists e. split; [done|].
      by eapply connect_throws. }
  split; [intros msg; apply monitor_reconnect_fails|].
  intros Hnet. split; [apply monitor_keeps_running; intros n; apply Hnet|].
  unfold connect_and_run.
  destruct (connect_returns url ca crt key w Hnet) as [w1 Hconnect].
  rewrite Hconnect.
  pose proof (monitor_keeps_running fuel w1) as Hrunning.
  rewrite (connect_env _ _ _ _ _ _ _ Hconnect) in Hrunning.
  specialize (Hrunning (fun n => proj2 (Hnet n))).
  by destruct (monitorConnectionState fuel w1) as [[|o1] w2].
Qed.

End Monitoring.

(** ** More on the dispatch of a message *)

Section Answers.
Context `{!Externals}.

Ltac open_request Hrun :=
  unfold handle_message in Hrun;
  run_all Hrun;
  injection Hrun as <- <-;
  do 3 (use_answers; simplify_eq);
  repeat match goal with
         | E : ?x = _, X : ?x = _ |- _ => rewrite E in X; simplify_eq
         end;
  try congruence.

(** For a valid request to a registered module whose action returns,
    the module is called once and one response is sent back: its
    [data.response] is the output and its only endpoint the sender of
    the request. *)
Theorem module_output_answered
    modules_ message doc module_name action_name module output w out w' :
  run (handle_message modules_ message) w = (out, w') ->
  cnc_request message doc module_name action_name ->
  modules_ !! module_name = Some module ->
  validate_and_call_action module action_name
    (json_get (json_get doc "data") "params") = inr output ->
  let response := response_of doc output in
  out = Returned tt
  /\ calls_of (events_since w w') = [(module_name, action_name)]
  /\ sends_of (events_since w w') = [toStyledString response]
  /\ json_get (json_get response "data") "response" = output
  /\ json_get response "endpoints" = JArray [json_get doc "sender"].
Proof.
  intros Hrun (Hp & Hv & Hs & Hd & Hm & Ha) Hmod Hout.
  open_request Hrun.
  all: intros response.
  all: split; [reflexivity|].
  all: split; [show_events; reflexivity|].
  all: split; [show_events; reflexivity|].
  all: split; reflexivity.
Qed.

(** When the module rejects the request with a [validation_error], the
    response that is sent carries the message of the error in
    [data.response.error]. *)
Theorem validation_error_answered
    modules_ message doc module_name action_name module e w out w' :
  run (handle_message modules_ message) w = (out, w') ->
  cnc_request message doc module_name action_name ->
  modules_ !! module_name = Some module ->
  validate_and_call_action module action_name
    (json_get (json_get doc "data") "params") = inl e ->
  exn_cls e = validation_error ->
  let response :=
    response_of doc (json_set "error" (JString (what e)) JNull) in
  out = Returned tt
  /\ calls_of (events_since w w') = [(module_name, action_name)]
  /\ sends_of (events_since w w') = [toStyledString response]
  /\ json_get (json_get (json_get response "data") "response") "error"
     = JString (what e).
Proof.
  intros Hrun (Hp & Hv & Hs & Hd & Hm & Ha) Hmod Hout Hcls.
  open_request Hrun.
  all: intros response.
  all: split; [reflexivity|].
  all: split; [show_events; reflexivity|].
  all: split; [show_events; reflexivity|].
  all: reflexivity.
Qed.

(** Any other exception of the module ends the handling of the message
    without a response, and [handle_message] returns after one error
    entry: "failed to send" for a [message_error], "unexpected exception"
    for another exception derived from [std::exception], and "badness
    occured" for any other object. *)
Theorem module_failure_not_answered
    modules_ message doc module_name action_name module e w out w' :
  run (handle_message modules_ message) w = (out, w') ->
  cnc_request message doc module_name action_name ->
  modules_ !! module_name = Some module ->
  validate_and_call_action module action_name
    (json_get (json_get doc "data") "params") = inl e ->
  exn_cls e <> validation_error ->
  out = Returned tt
  /\ calls_of (events_since w w') = [(module_name, action_name)]
  /\ sends_of (events_since w w') = []
  /\ w_sent w' = w_sent w
  /\ last (events_since w w')
     = Some (if decide (exn_cls e = message_error)
             then EvLog ERROR "failed to send: %1%" [what e]
             else if decide (exn_cls e = non_std_exception)
                  then EvLog ERROR "badness occured" []
                  else EvLog ERROR "unexpected exception: %1%" [what e]).
Proof.
  intros Hrun (Hp & Hv & Hs & Hd & Hm & Ha) Hmod Hout Hcls.
  open_request Hrun.
  all: split; [reflexivity|].
  all: split; [show_events; reflexivity|].
  all: split; [show_events; reflexivity|].
  all: split; [reflexivity|].
  all: show_events.
  all: repeat destruct (decide _); first [done | congruence].
Qed.

(** A failure to send the response does not leave [handle_message]: it
    is logged as the last action (by the handler that matches what was
    thrown), nothing is delivered, and there is no second attempt. *)
Theorem send_failure_contained modules_ message w out w' payload e :
  run (handle_message modules_ message) w = (out, w') ->
  EvSend payload (inl e) ∈ events_since w w' ->
  out = Returned tt
  /\ w_sent w' = w_sent w
  /\ sends_of (events_since w w') = [payload]
  /\ last (events_since w w')
     = Some (if decide (exn_cls e = message_error)
             then EvLog ERROR "failed to send: %1%" [what e]
             else if decide (exn_cls e = non_std_exception)
                  then EvLog ERROR "badness occured" []
                  else EvLog ERROR "unexpected exception: %1%" [what e]).
Proof.
  intros Hrun Hin.
  unfold handle_message in Hrun.
  run_all Hrun.
  all: injection Hrun as <- <-.
  all: revert Hin; show_events; intros Hin.
  all: elem_cases Hin.
  all: try (change (map ?f ?l) with (f <$> l) in Hin;
            apply list_elem_of_fmap_1 in Hin as (? & ? & _); discriminate).
  all: simplify_eq.
  all: split; [reflexivity|].
  all: split; [reflexivity|].
  all: split; [reflexivity|].
  all: repeat destruct (decide _); first [done | congruence].
Qed.

(** [handle_message] can throw in one place only: the conversion of
    [data_schema] to a string, made outside the [try] block on a message
    whose envelope is valid. Nothing but the first log entry has happened
    then. *)
Theorem handle_message_throws_only_reading_data_schema
    modules_ message w e w' :
  run (handle_message modules_ message) w = (Threw e, w') ->
  exists doc,
    reader_parse message = Some doc
    /\ (validate doc network_message []).1 = true
    /\ asString (json_get doc "data_schema") = inl e
    /\ events_since w w'
       = [EvLog INFO ("received message:" +:+ nl +:+ "%1%") [message]].
Proof.
  intros Hrun. unfold handle_message in Hrun.
  run_all Hrun.
  all: try discriminate Hrun.
  all: injection Hrun as <- <-.
  all: use_answers; subst.
  all: eexists; split; [reflexivity|].
  all: split; [by rewrite Heqp|].
  all: split; [assumption|].
  all: show_events; reflexivity.
Qed.

(** Whatever the message, [handle_message] calls at most one action and
    tries to send at most one frame; what is delivered is that frame. *)
Theorem at_most_one_call_and_one_send modules_ message w out w' :
  run (handle_message modules_ message) w = (out, w') ->
  length (calls_of (events_since w w')) <= 1
  /\ length (sends_of (events_since w w')) <= 1
  /\ (w_sent w' = w_sent w
      \/ exists payload,
          sends_of (events_since w w') = [payload]
          /\ w_sent w' = w_sent w ++ [payload]).
Proof.
  intros Hrun. unfold handle_message in Hrun.
  run_all Hrun.
  all: injection Hrun as <- <-.
  all: lazymatch goal with
       | |- context [events_since ?w ?w'] =>
           first
             [ assert (Forall is_log (events_since w w')) as Hlogs
                 by (show_events;
                     repeat (constructor; [exact I|]);
                     first [constructor | apply Forall_map, Forall_true; done]);
               destruct (logs_only _ Hlogs) as [-> ->];
               split; [simpl; lia|]; split; [simpl; lia|];
               left; rewrite ?log_each_sent; reflexivity
             | show_events;
               split; [simpl; lia|]; split; [simpl; lia|];
               first [ by left | right; by eexists ] ]
       end.
Qed.

End Answers.

(** ** Logging in, connecting and monitoring *)

Section Connection.
Context `{!Externals}.

(** [send_login] either delivers the login message and returns, or
    throws [fatal_error "invalid login message schema"] without sending
    when the message does not validate, or fails to send it: a
    [message_error] of the send becomes
    [fatal_error "failed to send login message"], another exception goes
    through. *)
Theorem send_login_outcomes w out w' :
  run send_login w = (out, w') ->
  let frame := toStyledString login_message in
  (out = Returned tt
   /\ sends_of (events_since w w') = [frame]
   /\ w_sent w' = w_sent w ++ [frame])
  \/ (out = Threw (Exn fatal_error "invalid login message schema")
      /\ (validate login_message network_message []).1 = false
      /\ sends_of (events_since w w') = []
      /\ w_sent w' = w_sent w)
  \/ (exists e,
        EvSend frame (inl e) ∈ events_since w w'
        /\ w_sent w' = w_sent w
        /\ out = Threw (if decide (exn_cls e = message_error)
                        then Exn fatal_error "failed to send login message"
                        else e)).
Proof.
  intros Hrun frame. subst frame. unfold send_login in Hrun.
  run_all Hrun.
  all: injection Hrun as <- <-.
  all: use_answers.
  - right. left. split; [reflexivity|].
    split; [by subst|].
    assert (Forall is_log
              (events_since w
                 (foldl (fun w error =>
                           record (EvLog WARNING "    %1%" [error]) w)
                    (record (EvLog WARNING "validation failed" [])
                       (record (EvLog INFO ("login message:" +:+ nl +:+ "%1%")
                                  [toStyledString login_message]) w)) l)))
      as Hlogs
      by (show_events; repeat (constructor; [exact I|]);
          apply Forall_map, Forall_true; done).
    destruct (logs_only _ Hlogs) as [_ Hsends].
    split; [exact Hsends|]. by rewrite warn_each_sent.
  - right. right. eexists. split; [|split; [reflexivity|]].
    + show_events. repeat (apply elem_of_cons; first [by left | right]).
    + by rewrite decide_True.
  - right. right. eexists. split; [|split; [reflexivity|]].
    + show_events. repeat (apply elem_of_cons; first [by left | right]).
    + by rewrite decide_False.
  - left. split; [reflexivity|]. split; [|reflexivity].
    show_events. reflexivity.
Qed.

(** [connect] starts the heartbeat task exactly when it returns, as its
    last action, after the connection was opened and reported open. When
    the endpoint cannot be configured no connection is created; when
    opening or waiting fails, [fatal_error "failed to connect"] is
    thrown. *)
Theorem heartbeat_started_only_when_open url ca crt key w out w' :
  run (connect url ca crt key) w = (out, w') ->
  (out = Returned tt <-> EvHeartbeatStart ∈ events_since w w')
  /\ (forall pre post,
        events_since w w' = pre ++ EvHeartbeatStart :: post ->
        EvOpen (inr tt) ∈ pre /\ EvWaitForOpen (inr tt) ∈ pre /\ post = [])
  /\ (forall msg,
        EvConfigure ca crt key (inl (Exn endpoint_error msg))
          ∈ events_since w w' ->
        out = Threw (Exn fatal_error
                       "failed to configure the WebSocket endpoint")
        /\ EvCreateConnection url ∉ events_since w w')
  /\ (forall e,
        EvOpen (inl e) ∈ events_since w w'
        \/ EvWaitForOpen (inl e) ∈ events_since w w' ->
        out = Threw (Exn fatal_error "failed to connect")).
Proof.
  intros Hrun. unfold connect in Hrun.
  run_all Hrun.
  all: injection Hrun as <- <-.
  all: show_events.
  all: split;
    [split;
     [first [ discriminate
            | intros _; repeat (apply elem_of_cons; first [by left | right]) ]
     |intros Hin; first [reflexivity | elem_cases Hin]]|].
  all: split;
    [intros pre post Hev;
     repeat (destruct pre as [|? pre]; simpl in Hev;
             [try discriminate Hev
             |first [discriminate Hev | injection Hev as <- Hev]]);
     try discriminate Hev;
     injection Hev as <-;
     (split; [|split; [|reflexivity]]);
     repeat (apply elem_of_cons; first [by left | right])|].
  all: split;
    [intros msg Hin; elem_cases Hin; simplify_eq;
     (split; [reflexivity|]); intros Hc; elem_cases Hc
    |intros e [Hin|Hin]; elem_cases Hin; reflexivity].
Qed.

End Connection.

(** ** The loops: monitoring, the heartbeat thread, the pong counter *)

Section Loops.
Context `{!Externals}.

Lemma monitor_idle_trace fuel w :
  (forall n, env_state (w_env w) n = open) ->
  (monitorConnectionState fuel w).1 = Running
  /\ w_trace (monitorConnectionState fuel w).2
     = w_trace w ++ mjoin (replicate fuel [EvState open; EvSleep 11]).
Proof.
  unfold monitorConnectionState.
  revert w. induction fuel as [|fuel IH]; intros w Hopen.
  - split; [reflexivity|]. simpl. by rewrite app_nil_r.
  - cbn [forever].
    destruct (run monitor_round w) as [out w1] eqn:Hround.
    unfold monitor_round in Hround.
    run_all Hround.
    all: try (rewrite Hopen in *; discriminate).
    all: injection Hround as <- <-.
    destruct (IH (record (EvSleep 11) (record (EvState
                 (env_state (w_env w) (w_step w))) w))) as [IH1 IH2];
      [exact Hopen|].
    split; [exact IH1|]. rewrite IH2.
    cbn [w_trace record replicate mjoin list_join app].
    rewrite Hopen. by rewrite <- !app_assoc.
Qed.

(** While the connection is open, monitoring only reads the state and
    sleeps 11 s, round after round: no reconnection is attempted. *)
Theorem monitor_idles_while_open fuel w :
  (forall n, env_state (w_env w) n = open) ->
  (monitorConnectionState fuel w).1 = Running
  /\ events_since w (monitorConnectionState fuel w).2
     = mjoin (replicate fuel [EvState open; EvSleep 11]).
Proof.
  intros Hopen. destruct (monitor_idle_trace fuel w Hopen) as [H1 H2].
  split; [exact H1|]. unfold events_since. rewrite H2.
  by rewrite drop_app_length.
Qed.

Lemma adds_quietly_refl w : adds_quietly w w.
Proof. exists []. by rewrite app_nil_r. Qed.

Lemma adds_quietly_trans w1 w2 w3 :
  adds_quietly w1 w2 -> adds_quietly w2 w3 -> adds_quietly w1 w3.
Proof.
  intros (a & Ha & Ha1 & Ha2) (b & Hb & Hb1 & Hb2).
  exists (a ++ b). rewrite Hb, Ha, app_assoc. split; [done|].
  unfold heartbeat_starts, heartbeat_stops in *.
  rewrite !omap_app. by rewrite Ha1, Ha2, Hb1, Hb2.
Qed.

Lemma monitor_round_quiet w out w' :
  run monitor_round w = (out, w') -> adds_quietly w w'.
Proof.
  intros Hrun. unfold monitor_round in Hrun.
  run_all Hrun.
  all: injection Hrun as <- <-.
  all: eexists; cbn [w_trace record]; rewrite <- ?app_assoc; cbn [app].
  all: split; [reflexivity|]; split; reflexivity.
Qed.

Lemma monitor_quiet fuel w :
  adds_quietly w (monitorConnectionState fuel w).2.
Proof.
  unfold monitorConnectionState.
  revert w. induction fuel as [|fuel IH]; intros w.
  - apply adds_quietly_refl.
  - cbn [forever].
    destruct (run monitor_round w) as [[[]|e] w1] eqn:Hround.
    + eapply adds_quietly_trans; [by eapply monitor_round_quiet|apply IH].
    + by eapply monitor_round_quiet.
Qed.

(** As long as [connect_and_run] runs, one heartbeat task has been
    started and none stopped. When it has finished, as many were
    stopped as started: none when connecting failed, and the one
    started, as the last action, when monitoring threw. *)
Theorem heartbeat_stopped_when_monitoring_ends
    url ca crt key fuel w p w' :
  connect_and_run url ca crt key fuel w = (p, w') ->
  let evs := events_since w w' in
  match p with
  | Running => heartbeat_starts evs = [tt] /\ heartbeat_stops evs = []
  | Finished _ =>
      heartbeat_stops evs = heartbeat_starts evs
      /\ (heartbeat_starts evs = [tt] -> last evs = Some EvHeartbeatStop)
  end.
Proof.
  unfold connect_and_run.
  destruct (run (connect url ca crt key) w) as [out w1] eqn:Hconnect.
  unfold connect in Hconnect.
  run_all Hconnect.
  all: injection Hconnect as <- <-.
  all: try (intros [= <- <-]; show_events; by split).
  match goal with
  | |- context [monitorConnectionState fuel ?w1] =>
      destruct (monitor_quiet fuel w1) as (evs & Htrace & Hstarts & Hstops);
      destruct (monitorConnectionState fuel w1) as [[|o] w2]
  end.
  all: intros [= <- <-]; cbn [snd] in Htrace.
  all: unfold events_since.
  all: rewrite ?endpoint_run_bind; cbn [run handle perform Ev fst snd
         HeartbeatTask_stop_ log call mbind Prog_bind bind record w_trace].
  all: rewrite Htrace; cbn [w_trace record];
       rewrite <- ?app_assoc; cbn [app]; rewrite drop_app_length.
  all: unfold heartbeat_starts, heartbeat_stops in *.
  all: repeat (cbn [omap list_omap]; rewrite ?omap_app, ?Hstarts, ?Hstops).
  all: cbn [omap list_omap app].
  - by split.
  - split; [reflexivity|]. intros _.
    rewrite !app_comm_cons.
    change [EvLog INFO "stopping the heartbeat task" []; EvHeartbeatStop]
      with ([EvLog INFO "stopping the heartbeat task" []]
            ++ [EvHeartbeatStop]).
    rewrite app_assoc. apply last_snoc.
Qed.

Lemma heartbeat_round_trace payload w out w' :
  run (heartbeat_round payload) w = (out, w') ->
  exists evs,
    w_trace w' = w_trace w ++ evs
    /\ match out with
       | Returned _ => heartbeat_round_events payload (EvMustStop false :: evs)
       | Threw e =>
           evs = [EvState open; EvPing payload (inl e)]
           /\ exn_cls e <> message_error
       end.
Proof.
  intros Hrun. unfold heartbeat_round in Hrun.
  run_all Hrun.
  all: injection Hrun as <- <-.
  all: eexists; cbn [w_trace record]; rewrite <- ?app_assoc; cbn [app].
  all: (split; [reflexivity|]).
  all: repeat match goal with
         | E : bool_decide _ = true |- _ =>
             apply bool_decide_eq_true in E; rewrite ?E
         | E : bool_decide _ = false |- _ => apply bool_decide_eq_false in E
         end.
  - right. left. by eexists.
  - by split.
  - by left.
  - right. right. by eexists.
Qed.

Lemma heartbeat_thread_trace fuel payload w p w' :
  heartbeatThread fuel payload w = (p, w') ->
  exists rounds ending,
    w_trace w' = w_trace w ++ mjoin rounds ++ ending
    /\ Forall (heartbeat_round_events payload) rounds
    /\ match p with
       | Running => ending = [] /\ length rounds = fuel
       | Finished (Returned _) => ending = [EvMustStop true]
       | Finished (Threw e) =>
           ending = [EvMustStop false; EvState open; EvPing payload (inl e)]
           /\ exn_cls e <> message_error
       end.
Proof.
  revert w. induction fuel as [|fuel IH]; intros w Hrun.
  - injection Hrun as <- <-. exists [], []. by rewrite app_nil_r.
  - cbn [heartbeatThread] in Hrun. rewrite run_must_stop in Hrun.
    destruct (env_must_stop (w_env w) (w_step w)).
    + injection Hrun as <- <-. exists [], [EvMustStop true]. by split.
    + destruct (run (heartbeat_round payload) _) as [out w2] eqn:Hround.
      destruct (heartbeat_round_trace _ _ _ _ Hround) as (evs & Htrace & Hevs).
      cbn [w_trace record] in Htrace.
      destruct out as [[]|e].
      * destruct (IH _ Hrun) as (rounds & ending & Hrest & Hall & Hend).
        exists ((EvMustStop false :: evs) :: rounds), ending.
        split; [|split].
        -- rewrite Hrest, Htrace. cbn [mjoin list_join].
           by rewrite <- !app_assoc.
        -- by constructor.
        -- destruct p as [|[[]|e]]; [|done|done].
           destruct Hend as [-> <-]. by split.
      * injection Hrun as <- <-. destruct Hevs as [-> Hcls].
        exists [], [EvMustStop false; EvState open; EvPing payload (inl e)].
        split; [|by split].
        rewrite Htrace. cbn [mjoin list_join app]. by rewrite <- app_assoc.
Qed.

(** The events of the heartbeat thread are a sequence of rounds, each
    starting with [must_stop_] read false: a ping when the state read is
    open, no ping otherwise, then a sleep of 30 s; a [message_error] of
    the ping is logged and the round goes on. The thread returns exactly
    when it reads [must_stop_] true, and throws only what a ping threw
    that is not a [message_error]. *)
Theorem heartbeat_thread_rounds fuel payload w p w' :
  heartbeatThread fuel payload w = (p, w') ->
  exists rounds ending,
    events_since w w' = mjoin rounds ++ ending
    /\ Forall (heartbeat_round_events payload) rounds
    /\ match p with
       | Running => ending = [] /\ length rounds = fuel
       | Finished (Returned _) => ending = [EvMustStop true]
       | Finished (Threw e) =>
           ending = [EvMustStop false; EvState open; EvPing payload (inl e)]
           /\ exn_cls e <> message_error
       end.
Proof.
  intros Hrun.
  destruct (heartbeat_thread_trace _ _ _ _ _ Hrun)
    as (rounds & ending & Htrace & Hrest).
  exists rounds, ending. split; [|exact Hrest].
  unfold events_since. rewrite Htrace. by rewrite drop_app_length.
Qed.

Lemma run_onPong_c counter payload w :
  run (onPong_c counter payload) w
  = (Returned (if (0 <? counter)%Z then 0%Z else counter),
     record (EvLog DEBUG "received pong - payload: '%1%'" [payload]) w).
Proof. unfold onPong_c. simpl. by destruct (0 <? counter)%Z. Qed.

Lemma run_onPongTimeout_c counter payload w :
  run (onPongTimeout_c counter payload) w
  = (Returned (int_wrap (counter + 1)),
     record (EvLog WARNING "pong timeout (%1% consecutive) - payload: '%2%'"
               [NilEmpty.string_of_int (Z.to_int counter); payload]) w).
Proof. reflexivity. Qed.

Lemma run_pong_callbacks_cons x l counter w :
  run (pong_callbacks (x :: l) counter) w
  = match x with
    | Pong payload =>
        run (pong_callbacks l (if (0 <? counter)%Z then 0%Z else counter))
          (record (EvLog DEBUG "received pong - payload: '%1%'" [payload]) w)
    | PongTimeout payload =>
        run (pong_callbacks l (int_wrap (counter + 1)))
          (record
             (EvLog WARNING "pong timeout (%1% consecutive) - payload: '%2%'"
                [NilEmpty.string_of_int (Z.to_int counter); payload]) w)
    end.
Proof.
  destruct x as [payload|payload]; cbn [pong_callbacks];
    rewrite endpoint_run_bind.
  - by rewrite run_onPong_c.
  - by rewrite run_onPongTimeout_c.
Qed.

Lemma run_pong_callbacks_snoc l x counter w :
  run (pong_callbacks (l ++ [x]) counter) w
  = match run (pong_callbacks l counter) w with
    | (Returned counter', w1) => run (pong_callbacks [x] counter') w1
    | (Threw e, w1) => (Threw e, w1)
    end.
Proof.
  revert counter w. induction l as [|y l IH]; intros counter w.
  - reflexivity.
  - change ((y :: l) ++ [x]) with (y :: (l ++ [x])).
    rewrite !(run_pong_callbacks_cons y). destruct y; apply IH.
Qed.

Lemma leading_timeouts_le l : leading_timeouts l <= length l.
Proof.
  induction l as [|[] l IH]; simpl; lia.
Qed.

Lemma trailing_timeouts_le l : trailing_timeouts l <= length l.
Proof.
  unfold trailing_timeouts. rewrite <- (length_reverse l).
  apply leading_timeouts_le.
Qed.

Lemma trailing_timeouts_snoc l x :
  trailing_timeouts (l ++ [x])
  = match x with
    | Pong _ => 0
    | PongTimeout _ => S (trailing_timeouts l)
    end.
Proof.
  unfold trailing_timeouts. rewrite reverse_snoc. by destruct x.
Qed.

(** Started at 0, and for fewer reports than [INT_MAX], the counter of
    the pong callbacks is the number of timeouts since the last pong;
    the warning logged at a timeout shows the number of timeouts before
    it. Nothing is sent. *)
Theorem pong_counter_counts_trailing_timeouts l w :
  (Z.of_nat (length l) <= INT_MAX)%Z ->
  exists w',
    run (pong_callbacks l 0) w
    = (Returned (Z.of_nat (trailing_timeouts l)), w')
    /\ w_sent w' = w_sent w
    /\ (forall l0 payload,
          l = l0 ++ [PongTimeout payload] ->
          last (w_trace w')
          = Some (EvLog WARNING
                    "pong timeout (%1% consecutive) - payload: '%2%'"
                    [NilEmpty.string_of_int
                       (Z.to_int (Z.of_nat (trailing_timeouts l0)));
                     payload])).
Proof.
  induction l as [|x l IH] using rev_ind; intros Hlen.
  - exists w. split; [reflexivity|]. split; [reflexivity|].
    intros l0 payload Hl. by destruct l0.
  - rewrite length_app in Hlen. simpl in Hlen.
    destruct IH as (w1 & Hrun & Hsent & _); [lia|].
    rewrite run_pong_callbacks_snoc, Hrun, run_pong_callbacks_cons.
    rewrite trailing_timeouts_snoc.
    pose proof (trailing_timeouts_le l) as Hle.
    destruct x as [payload|payload]; eexists.
    + split; [|split].
      * cbn [pong_callbacks]. rewrite endpoint_run_ret. f_equal. f_equal.
        destruct (Z.ltb_spec 0 (Z.of_nat (trailing_timeouts l))); lia.
      * exact Hsent.
      * intros l0 p Hl. apply app_inj_tail in Hl as [_ Hl]. discriminate Hl.
    + split; [|split].
      * cbn [pong_callbacks]. rewrite endpoint_run_ret. f_equal. f_equal.
        unfold int_wrap, INT_MAX in *. rewrite Z.mod_small; lia.
      * exact Hsent.
      * intros l0 p Hl. apply app_inj_tail in Hl as [<- [= <-]].
        cbn [w_trace record]. apply last_snoc.
Qed.

(** When the connection is found not open and can be reopened, a round
    of monitoring warns, sleeps 2 s, opens the connection, waits for it
    to be open and sleeps 11 s; monitoring goes on. *)
Theorem monitor_reconnects_when_closed w :
  env_state (w_env w) (w_step w) <> open ->
  env_open (w_env w) (3 + w_step w) = None ->
  env_wait (w_env w) (4 + w_step w) = None ->
  (monitorConnectionState 1 w).1 = Running
  /\ events_since w (monitorConnectionState 1 w).2
     = [EvState (env_state (w_env w) (w_step w));
        EvLog WARNING "agent is not connected; will try to reconnect in 2 s"
          [];
        EvSleep 2; EvOpen (inr tt); EvWaitForOpen (inr tt); EvSleep 11].
Proof.
  intros Hst Hopen Hwait. unfold monitorConnectionState.
  cbn [forever Nat.add] in *.
  destruct (run monitor_round w) as [out w1] eqn:Hround.
  unfold monitor_round in Hround.
  run_all Hround.
  all: try congruence.
  all: try match goal with
         | E : negb _ = false |- _ =>
             apply negb_false_iff, bool_decide_eq_true in E; contradiction
         end.
  all: injection Hround as <- <-.
  split; [reflexivity|]. cbn [snd]. show_events. reflexivity.
Qed.

(** When the connection is found not open and is opened again but never
    reports open, the round logs the failure and monitoring ends with
    [fatal_error "failed to reconnect"]. *)
Theorem wait_failure_is_fatal fuel w msg :
  env_state (w_env w) (w_step w) <> open ->
  env_open (w_env w) (3 + w_step w) = None ->
  env_wait (w_env w) (4 + w_step w) = Some msg ->
  (monitorConnectionState (S fuel) w).1
  = Finished (Threw (Exn fatal_error "failed to reconnect"))
  /\ last (events_since w (monitorConnectionState (S fuel) w).2)
     = Some (EvLog WARNING "failed to reconnect; %1%" [msg]).
Proof.
  intros Hst Hopen Hwait. unfold monitorConnectionState.
  cbn [forever Nat.add] in *.
  destruct (run monitor_round w) as [out w1] eqn:Hround.
  unfold monitor_round in Hround.
  run_all Hround.
  all: try congruence.
  all: try match goal with
         | E : negb _ = false |- _ =>
             apply negb_false_iff, bool_decide_eq_true in E; contradiction
         end.
  all: injection Hround as <- <-.
  split; [reflexivity|]. cbn [snd]. show_events.
  rewrite Hwait in *. by simplify_eq.
Qed.

End Loops.

(** ** The theorems at work on sample frames *)

Import Sample.

Lemma invalid_message_dropped_witness :
  let w' := (run (@handle_message externals modules_ "{}") (world quiet)).2 in
  @fails_validation externals "{}"
  /\ calls_of (events_since (world quiet) w') = []
  /\ sends_of (events_since (world quiet) w') = []
  /\ w_sent w' = [].
Proof.
  intros w'.
  assert (@fails_validation externals "{}") as Hinv.
  { right. exists (JObject []). split; [reflexivity|]. left. reflexivity. }
  split; [exact Hinv|].
  destruct (@invalid_message_dropped externals modules_ "{}" (world quiet)
              (run (@handle_message externals modules_ "{}")
                 (world quiet)).1 w')
    as (_ & _ & _ & Hcalls & Hsends & Hsent).
  - apply surjective_pairing.
  - exact Hinv.
  - split; [exact Hcalls|]. split; [exact Hsends|exact Hsent].
Defined.

Lemma unknown_module_answered_witness :
  let w' :=
    (run (@handle_message externals modules_ "reboot?") (world quiet)).2 in
  exists doc,
    @cnc_request externals "reboot?" doc "reboot" "now"
    /\ modules_ !! "reboot" = None
    /\ w_sent w'
       = [show (response_of doc
                  (JObject [("error",
                             JString "Unknown module: 'reboot'")]))].
Proof.
  intros w'.
  set (doc := JObject
                [("sender", JString "cth://controller");
                 ("data_schema", JString cncschema);
                 ("data", JObject [("module", JString "reboot");
                                   ("action", JString "now")])]).
  assert (@cnc_request externals "reboot?" doc "reboot" "now") as Hreq
    by (repeat split; reflexivity).
  exists doc. split; [exact Hreq|]. split; [reflexivity|].
  destruct (@unknown_module_answered externals modules_ "reboot?" doc
              "reboot" "now" (world quiet)
              (run (@handle_message externals modules_ "reboot?")
                 (world quiet)).1 w')
    as (_ & _ & _ & _ & Hsent).
  - apply surjective_pairing.
  - exact Hreq.
  - reflexivity.
  - exact (Hsent eq_refl).
Defined.

Lemma monitorConnectionState_never_returns_witness :
  (monitorConnectionState 3 (world flaky)).1
  = Finished (Threw (Exn fatal_error "failed to reconnect"))
  /\ (connect_and_run "wss://server" "ca" "crt" "key" 40
        (world quiet)).1 = Running.
Proof.
  split.
  - destruct (monitorConnectionState 3 (world flaky))
      as [p w'] eqn:Hrun.
    destruct p as [|o]; [vm_compute in Hrun; discriminate Hrun|].
    destruct (monitorConnectionState_never_returns
                "wss://server" "ca" "crt" "key" 3 (world flaky))
      as (Hfinished & _).
    destruct (Hfinished o w' Hrun) as [-> _]. reflexivity.
  - destruct (monitorConnectionState_never_returns
                "wss://server" "ca" "crt" "key" 40 (world quiet))
      as (_ & _ & _ & Hrunning).
    apply Hrunning. intros n. repeat split.
Defined.

(** ** More sample frames *)

Lemma ping_request : @cnc_request externals "ping?" ping_doc "ping" "ping".
Proof. repeat split; reflexivity. Qed.

Lemma module_output_answered_witness :
  let r := run (@handle_message externals modules_ "ping?") (world quiet) in
  r.1 = Returned tt
  /\ w_sent r.2
     = [show (response_of ping_doc (JObject [("pong", JBool true)]))].
Proof.
  intros r.
  destruct (@module_output_answered externals modules_ "ping?" ping_doc
              "ping" "ping" ping (JObject [("pong", JBool true)])
              (world quiet) r.1 r.2)
    as (Hout & _).
  - apply surjective_pairing.
  - exact ping_request.
  - reflexivity.
  - reflexivity.
  - split; [exact Hout | vm_compute; reflexivity].
Defined.

Lemma validation_error_answered_witness :
  let r :=
    run (@handle_message externals {[ "ping" := strict ]} "ping?")
      (world quiet) in
  r.1 = Returned tt
  /\ sends_of (events_since (world quiet) r.2)
     = [show (response_of ping_doc
                (JObject [("error", JString "unknown action")]))].
Proof.
  intros r.
  destruct (@validation_error_answered externals {[ "ping" := strict ]}
              "ping?" ping_doc "ping" "ping" strict
              (Exn validation_error "unknown action") (world quiet) r.1 r.2)
    as (Hout & _ & Hsends & _).
  - apply surjective_pairing.
  - exact ping_request.
  - reflexivity.
  - reflexivity.
  - reflexivity.
  - split; [exact Hout | exact Hsends].
Defined.

Lemma module_failure_not_answered_witness :
  let r1 :=
    run (@handle_message externals {[ "ping" := broken ]} "ping?")
      (world quiet) in
  let r2 :=
    run (@handle_message externals {[ "ping" := wild ]} "ping?")
      (world quiet) in
  r1.1 = Returned tt /\ w_sent r1.2 = []
  /\ last (events_since (world quiet) r1.2)
     = Some (EvLog ERROR "unexpected exception: %1%" ["bad alloc"])
  /\ r2.1 = Returned tt /\ w_sent r2.2 = []
  /\ last (events_since (world quiet) r2.2)
     = Some (EvLog ERROR "badness occured" []).
Proof.
  intros r1 r2.
  destruct (@module_failure_not_answered externals {[ "ping" := broken ]}
              "ping?" ping_doc "ping" "ping" broken
              (Exn std_exception "bad alloc") (world quiet) r1.1 r1.2)
    as (Hout1 & _ & _ & Hsent1 & Hlast1).
  { apply surjective_pairing. }
  { exact ping_request. }
  { reflexivity. }
  { reflexivity. }
  { discriminate. }
  destruct (@module_failure_not_answered externals {[ "ping" := wild ]}
              "ping?" ping_doc "ping" "ping" wild
              (Exn non_std_exception EmptyString) (world quiet) r2.1 r2.2)
    as (Hout2 & _ & _ & Hsent2 & Hlast2).
  { apply surjective_pairing. }
  { exact ping_request. }
  { reflexivity. }
  { reflexivity. }
  { discriminate. }
  split; [exact Hout1|]. split; [exact Hsent1|]. split; [exact Hlast1|].
  split; [exact Hout2|]. split; [exact Hsent2 | exact Hlast2].
Defined.

Lemma send_failure_contained_witness :
  let r :=
    run (@handle_message externals modules_ "ping?") (world offline) in
  r.1 = Returned tt /\ w_sent r.2 = [].
Proof.
  intros r.
  destruct (@send_failure_contained externals modules_ "ping?"
              (world offline) r.1 r.2
              (show (response_of ping_doc (JObject [("pong", JBool true)])))
              (Exn message_error "not connected"))
    as (Hout & Hsent & _).
  - apply surjective_pairing.
  - vm_compute. repeat (apply elem_of_cons; first [by left | right]).
  - split; [exact Hout | exact Hsent].
Defined.

Lemma handle_message_throws_only_reading_data_schema_witness :
  let r := run (@handle_message lax modules_ "odd") (world quiet) in
  r.1 = Threw (Exn std_exception "Type is not convertible to string")
  /\ length (events_since (world quiet) r.2) = 1%nat.
Proof.
  intros r. split; [vm_compute; reflexivity|].
  destruct (@handle_message_throws_only_reading_data_schema lax modules_
              "odd" (world quiet)
              (Exn std_exception "Type is not convertible to string") r.2)
    as (doc & _ & _ & _ & Hevs).
  - vm_compute; reflexivity.
  - by rewrite Hevs.
Defined.

Lemma at_most_one_call_and_one_send_witness :
  let r := run (@handle_message externals modules_ "ping?") (world quiet) in
  length (calls_of (events_since (world quiet) r.2)) <= 1
  /\ length (sends_of (events_since (world quiet) r.2)) <= 1.
Proof.
  intros r.
  destruct (@at_most_one_call_and_one_send externals modules_ "ping?"
              (world quiet) r.1 r.2) as (Hcalls & Hsends & _).
  - apply surjective_pairing.
  - split; [exact Hcalls | exact Hsends].
Defined.

Lemma send_login_outcomes_witness :
  let r := run (@send_login externals) (world quiet) in
  r.1 = Returned tt /\ w_sent r.2 = [show login_message].
Proof.
  intros r.
  assert (r.1 = Returned tt) as Hret by (vm_compute; reflexivity).
  destruct (@send_login_outcomes externals (world quiet) r.1 r.2)
    as [(Hout & _ & Hsent)|[(Hout & _)|(e & _ & _ & Hout)]].
  - apply surjective_pairing.
  - split; [exact Hout | exact Hsent].
  - rewrite Hret in Hout. discriminate Hout.
  - rewrite Hret in Hout. discriminate Hout.
Defined.

Lemma heartbeat_started_only_when_open_witness :
  let r := run (connect "wss://server" "ca" "crt" "key") (world quiet) in
  r.1 = Returned tt /\ EvHeartbeatStart ∈ events_since (world quiet) r.2.
Proof.
  intros r.
  destruct (heartbeat_started_only_when_open "wss://server" "ca" "crt" "key"
              (world quiet) r.1 r.2) as ([Hstart _] & _).
  - apply surjective_pairing.
  - assert (r.1 = Returned tt) as Hout by (vm_compute; reflexivity).
    split; [exact Hout | exact (Hstart Hout)].
Defined.

Lemma monitor_idles_while_open_witness :
  events_since (world quiet) (monitorConnectionState 2 (world quiet)).2
  = [EvState open; EvSleep 11; EvState open; EvSleep 11].
Proof.
  destruct (monitor_idles_while_open 2 (world quiet)) as [_ Hevs].
  - reflexivity.
  - exact Hevs.
Defined.

Lemma heartbeat_stopped_when_monitoring_ends_witness :
  let r := connect_and_run "wss://server" "ca" "crt" "key" 5 (world flaky) in
  r.1 = Finished (Threw (Exn fatal_error "failed to reconnect"))
  /\ heartbeat_stops (events_since (world flaky) r.2) = [tt].
Proof.
  intros r.
  assert (r.1 = Finished (Threw (Exn fatal_error "failed to reconnect")))
    as Hout by (vm_compute; reflexivity).
  split; [exact Hout|].
  pose proof (heartbeat_stopped_when_monitoring_ends "wss://server" "ca"
                "crt" "key" 5 (world flaky) r.1 r.2
                (surjective_pairing r)) as Hbalance.
  rewrite Hout in Hbalance. destruct Hbalance as [-> _].
  vm_compute; reflexivity.
Defined.

Lemma heartbeat_thread_rounds_witness :
  let r := heartbeatThread 2 "beat" (world quiet) in
  r.1 = Running
  /\ exists rounds,
       events_since (world quiet) r.2 = mjoin rounds
       /\ length rounds = 2%nat.
Proof.
  intros r.
  assert (r.1 = Running) as Hout by (vm_compute; reflexivity).
  split; [exact Hout|].
  destruct (heartbeat_thread_rounds 2 "beat" (world quiet) r.1 r.2
              (surjective_pairing r))
    as (rounds & ending & Hevs & _ & Hend).
  rewrite Hout in Hend. destruct Hend as [-> Hlen].
  exists rounds. rewrite app_nil_r in Hevs. by split.
Defined.

Lemma pong_counter_counts_trailing_timeouts_witness :
  (run (pong_callbacks
          [PongTimeout "a"; Pong "b"; PongTimeout "c"; PongTimeout "d"] 0)
     (world quiet)).1
  = Returned 2%Z.
Proof.
  destruct (pong_counter_counts_trailing_timeouts
              [PongTimeout "a"; Pong "b"; PongTimeout "c"; PongTimeout "d"]
              (world quiet)) as (w' & Hrun & _).
  - vm_compute. discriminate.
  - by rewrite Hrun.
Defined.

Lemma monitor_reconnects_when_closed_witness :
  (monitorConnectionState 1 (world dropping)).1 = Running
  /\ length (events_since (world dropping)
               (monitorConnectionState 1 (world dropping)).2) = 6%nat.
Proof.
  destruct (monitor_reconnects_when_closed (world dropping))
    as [Hrunning Hevs].
  - discriminate.
  - reflexivity.
  - reflexivity.
  - split; [exact Hrunning|]. by rewrite Hevs.
Defined.

Lemma wait_failure_is_fatal_witness :
  (monitorConnectionState 3 (world stalled)).1
  = Finished (Threw (Exn fatal_error "failed to reconnect")).
Proof.
  destruct (wait_failure_is_fatal 2 (world stalled) "handshake timed out")
    as [Hout _].
  - discriminate.
  - reflexivity.
  - reflexivity.
  - exact Hout.
Defined.

End AgentEndpointFacts.
